(** * Investment calculator: the financial formulas and the ITP table

    A shallow embedding of [src/utils/calculations.js] ([calculatePMT],
    [calculateInvestment], [generateCashFlowProjection]), of
    [src/data/itpTable.js] ([itpTable], [communities], [getItpRate]), of the
    derived data of [src/App.jsx] ([results], [cashFlowProjection],
    [expenseBreakdown]) and of the file name built by
    [generateInvestmentPDF].

    Numbers.  A JavaScript number is modelled by [number]: an exact rational,
    or one of the three non-finite values a division by zero can produce.
    The rounding of binary64 arithmetic and the sign of zero are not
    modelled there: every finite operation is exact.  Module [Binary64]
    embeds the formulas a second time over binary64 floating point, for
    what depends on the rounding.  The values the functions
    receive from their callers (the fields of the input object, the
    revaluation rate, the number of years) are finite, hence of type [Q];
    the counter of the projection's loop is an integer.  [Math.pow] belongs
    to the runtime and is a parameter of the formulas.

    The table.  [itpTable] is an object literal: reading a property finds
    the object's own property or, failing that, the one inherited from
    [Object.prototype]. *)

From Stdlib Require Import QArith Qround Qpower Lqa.
From Stdlib Require PrimFloat.
From stdpp Require Import gmap strings list pretty.
From Equations Require Import Equations.

Local Open Scope Q_scope.

(** ** JavaScript numbers *)

Module Js.

Inductive number : Type :=
| Num (q : Q)
| PosInf
| NegInf
| NaN.

(** The sign of a rational as a comparison with zero. *)
Definition Qsign (q : Q) : comparison := Qcompare q 0.

Definition inf_of (c : comparison) : number :=
  match c with Gt => PosInf | Lt => NegInf | Eq => NaN end.

Definition sign_of (x : number) : option comparison :=
  match x with
  | Num q => Some (Qsign q)
  | PosInf => Some Gt
  | NegInf => Some Lt
  | NaN => None
  end.

Definition add (x y : number) : number :=
  match x, y with
  | NaN, _ | _, NaN => NaN
  | Num a, Num b => Num (a + b)
  | PosInf, NegInf | NegInf, PosInf => NaN
  | PosInf, _ | _, PosInf => PosInf
  | NegInf, _ | _, NegInf => NegInf
  end.

Definition sub (x y : number) : number :=
  match x, y with
  | NaN, _ | _, NaN => NaN
  | Num a, Num b => Num (a - b)
  | PosInf, PosInf | NegInf, NegInf => NaN
  | PosInf, _ | _, NegInf => PosInf
  | NegInf, _ | _, PosInf => NegInf
  end.

Definition mul_sign (a b : comparison) : comparison :=
  match a, b with
  | Eq, _ | _, Eq => Eq
  | Gt, Gt | Lt, Lt => Gt
  | Gt, Lt | Lt, Gt => Lt
  end.

Definition mul (x y : number) : number :=
  match x, y with
  | Num a, Num b => Num (a * b)
  | _, _ =>
      match sign_of x, sign_of y with
      | Some a, Some b => inf_of (mul_sign a b)
      | _, _ => NaN
      end
  end.

(** Division: a finite dividend over zero gives an infinity of the
    dividend's sign (zero over zero gives NaN), a finite dividend over an
    infinity gives zero. *)
Definition div (x y : number) : number :=
  match x, y with
  | NaN, _ | _, NaN => NaN
  | Num a, Num b =>
      if Qeq_bool b 0 then inf_of (Qsign a) else Num (a / b)
  | Num _, _ => Num 0
  | _, Num b =>
      match sign_of x, Qsign b with
      | Some a, Lt => inf_of (mul_sign a Lt)
      | Some a, _ => inf_of a
      | None, _ => NaN
      end
  | _, _ => NaN
  end.

(** The comparison of two numbers; [None] when one of them is NaN. *)
Definition cmp (x y : number) : option comparison :=
  match x, y with
  | NaN, _ | _, NaN => None
  | Num a, Num b => Some (Qcompare a b)
  | PosInf, PosInf | NegInf, NegInf => Some Eq
  | PosInf, _ | _, NegInf => Some Gt
  | NegInf, _ | _, PosInf => Some Lt
  end.

Definition leb (x y : number) : bool :=
  match cmp x y with Some Lt | Some Eq => true | _ => false end.

Definition gtb (x y : number) : bool :=
  match cmp x y with Some Gt => true | _ => false end.

(** [Math.round]: the nearest integer, a tie going towards +Infinity. *)
Definition round (x : number) : number :=
  match x with
  | Num q => Num (inject_Z (Qfloor (q + (1 # 2))))
  | _ => x
  end.

(** Two numbers denote the same value. *)
Definition same (x y : number) : Prop :=
  match x, y with
  | Num a, Num b => a == b
  | PosInf, PosInf | NegInf, NegInf | NaN, NaN => True
  | _, _ => False
  end.

End Js.

Export Js.

Declare Scope js_scope.
Delimit Scope js_scope with js.
Bind Scope js_scope with number.
Notation "x + y" := (add x y) : js_scope.
Notation "x - y" := (sub x y) : js_scope.
Notation "x * y" := (mul x y) : js_scope.
Notation "x / y" := (div x y) : js_scope.
Notation "x <=? y" := (leb x y) : js_scope.
Notation "x >? y" := (gtb x y) (at level 70) : js_scope.
Infix "=~" := same (at level 70, no associativity).

Coercion Num : Q >-> number.

(** ** The data of [calculations.js] *)

(** The object [calculateInvestment] destructures.  A field is [None] when
    the property is absent ([undefined]), in which case the destructuring
    default applies. *)
Record Inputs : Type := {
  (* Purchase costs *)
  precioCompra : option Q;
  itpRate : option Q;
  gastos : option Q;
  gastosHipoteca : option Q;
  costeReforma : option Q;
  comision : option Q;
  mobiliario : option Q;
  (* Income *)
  cuotaAlquiler : option Q;
  revalorizacion : option Q;
  (* Financing *)
  porcentajeFinanciado : option Q;
  plazoHipoteca : option Q;
  tipoInteres : option Q;
  (* Annual expenses *)
  impuestosAnuales : option Q;
  segurosAnuales : option Q;
  comunidadAnual : option Q;
  mantenimientoAnual : option Q;
  periodosVacioAnual : option Q
}.

(** The object [calculateInvestment] returns. *)
Record Results : Type := {
  (* Purchase *)
  impuestoITP : number;
  totalCompra : number;
  (* Financing *)
  hipoteca : number;
  capitalAportar : number;
  cuotaHipotecaMensual : number;
  cuotaHipotecaAnual : number;
  interesesPromedioMensual : number;
  interesesPromedioAnual : number;
  amortizacionPromedioMensual : number;
  amortizacionPromedioAnual : number;
  (* Expenses *)
  totalGastosMensual : number;
  totalGastosAnual : number;
  (* Income *)
  ingresoAnual : number;
  (* KPIs *)
  rentabilidadBruta : number;
  rentabilidadNeta : number;
  cashFlowMensual : number;
  cashFlowAnual : number;
  per : number;
  porcentajeHipotecaAlquiler : number;
  cashFlowAlquiler : number;
  cashOnCash : number;
  roce : number;
  rentabilidadTotal : number
}.

(** A destructuring default: [const { field = d } = inputs]. *)
Definition field_or (d : Q) (field : option Q) : number := Num (default d field).

Section Calculations.

(** [Math.pow] is the runtime's: the formulas take it as given. *)
Variable pow : number -> number -> number.

Definition calculatePMT (annualRate years principal : number) : number :=
  (if (principal <=? 0) || (years <=? 0) then Num 0
   else if annualRate <=? 0 then principal / (years * 12)
   else
     let monthlyRate := annualRate / 12 in
     let totalPayments := years * 12 in
     principal * monthlyRate * pow (1 + monthlyRate) totalPayments
     / (pow (1 + monthlyRate) totalPayments - 1))%js.

Definition calculateInvestment (inputs : Inputs) : Results :=
  let precioCompra := field_or 0 (precioCompra inputs) in
  let itpRate := field_or 0.10 (itpRate inputs) in
  let gastos := field_or 0 (gastos inputs) in
  let gastosHipoteca := field_or 0 (gastosHipoteca inputs) in
  let costeReforma := field_or 0 (costeReforma inputs) in
  let comision := field_or 0 (comision inputs) in
  let mobiliario := field_or 0 (mobiliario inputs) in
  let cuotaAlquiler := field_or 0 (cuotaAlquiler inputs) in
  let revalorizacion := field_or 0 (revalorizacion inputs) in
  let porcentajeFinanciado := field_or 0 (porcentajeFinanciado inputs) in
  let plazoHipoteca := field_or 30 (plazoHipoteca inputs) in
  let tipoInteres := field_or 0.02 (tipoInteres inputs) in
  let impuestosAnuales := field_or 0 (impuestosAnuales inputs) in
  let segurosAnuales := field_or 0 (segurosAnuales inputs) in
  let comunidadAnual := field_or 0 (comunidadAnual inputs) in
  let mantenimientoAnual := field_or 0 (mantenimientoAnual inputs) in
  let periodosVacioAnual := field_or 0 (periodosVacioAnual inputs) in
  (* Purchase *)
  let impuestoITP := (precioCompra * itpRate)%js in
  let totalCompra :=
    (precioCompra + impuestoITP + gastos + gastosHipoteca + costeReforma
     + comision + mobiliario)%js in
  (* Financing *)
  let hipoteca := (precioCompra * porcentajeFinanciado)%js in
  let capitalAportar := (totalCompra - hipoteca)%js in
  let cuotaHipotecaMensual := calculatePMT tipoInteres plazoHipoteca hipoteca in
  let cuotaHipotecaAnual := (cuotaHipotecaMensual * 12)%js in
  let interesesPromedioMensual :=
    (if (hipoteca >? 0) && (plazoHipoteca >? 0)
     then ((cuotaHipotecaMensual * 12 * plazoHipoteca) - hipoteca)
          / (plazoHipoteca * 12)
     else 0)%js in
  let interesesPromedioAnual := (interesesPromedioMensual * 12)%js in
  let amortizacionPromedioMensual :=
    (cuotaHipotecaMensual - interesesPromedioMensual)%js in
  let amortizacionPromedioAnual := (amortizacionPromedioMensual * 12)%js in
  (* Expenses *)
  let totalGastosMensual :=
    ((impuestosAnuales + segurosAnuales + comunidadAnual + mantenimientoAnual
      + periodosVacioAnual) / 12)%js in
  let totalGastosAnual :=
    (impuestosAnuales + segurosAnuales + comunidadAnual + mantenimientoAnual
     + periodosVacioAnual)%js in
  (* Income *)
  let ingresoAnual := (cuotaAlquiler * 12)%js in
  (* Key performance indicators *)
  let rentabilidadBruta :=
    (if totalCompra >? 0 then ingresoAnual / totalCompra else 0)%js in
  let rentabilidadNeta :=
    (if totalCompra >? 0
     then (ingresoAnual - totalGastosAnual - interesesPromedioAnual)
          / totalCompra
     else 0)%js in
  let cashFlowMensual :=
    (cuotaAlquiler - cuotaHipotecaMensual - totalGastosMensual)%js in
  let cashFlowAnual := (cashFlowMensual * 12)%js in
  let per := (if ingresoAnual >? 0 then totalCompra / ingresoAnual else 0)%js in
  let porcentajeHipotecaAlquiler :=
    (if cuotaAlquiler >? 0 then cuotaHipotecaMensual / cuotaAlquiler else 0)%js in
  let cashFlowAlquiler :=
    (if cuotaAlquiler >? 0 then cashFlowMensual / cuotaAlquiler else 0)%js in
  let cashOnCash :=
    (if capitalAportar >? 0 then (12 * cashFlowMensual) / capitalAportar
     else 0)%js in
  let roce :=
    (if capitalAportar >? 0
     then (12 * (cashFlowMensual + amortizacionPromedioMensual))
          / capitalAportar
     else 0)%js in
  let rentabilidadTotal :=
    (if capitalAportar >? 0
     then ((ingresoAnual - totalGastosAnual - interesesPromedioAnual)
           / capitalAportar) + revalorizacion
     else 0)%js in
  {| impuestoITP := impuestoITP;
     totalCompra := totalCompra;
     hipoteca := hipoteca;
     capitalAportar := capitalAportar;
     cuotaHipotecaMensual := cuotaHipotecaMensual;
     cuotaHipotecaAnual := cuotaHipotecaAnual;
     interesesPromedioMensual := interesesPromedioMensual;
     interesesPromedioAnual := interesesPromedioAnual;
     amortizacionPromedioMensual := amortizacionPromedioMensual;
     amortizacionPromedioAnual := amortizacionPromedioAnual;
     totalGastosMensual := totalGastosMensual;
     totalGastosAnual := totalGastosAnual;
     ingresoAnual := ingresoAnual;
     rentabilidadBruta := rentabilidadBruta;
     rentabilidadNeta := rentabilidadNeta;
     cashFlowMensual := cashFlowMensual;
     cashFlowAnual := cashFlowAnual;
     per := per;
     porcentajeHipotecaAlquiler := porcentajeHipotecaAlquiler;
     cashFlowAlquiler := cashFlowAlquiler;
     cashOnCash := cashOnCash;
     roce := roce;
     rentabilidadTotal := rentabilidadTotal |}.

End Calculations.

(** ** The cash-flow projection *)

(** One entry of the array [generateCashFlowProjection] returns. *)
Record Point : Type := {
  year : string;
  cashFlow : number;
  accumulated : number
}.

(** The variables the [for] loop of [generateCashFlowProjection] updates. *)
Record LoopState : Type := {
  projection : list Point;
  accumulatedCashFlow : number;
  currentRent : number
}.

(** One pass through the body of the loop, for the given value of the
    counter [year]. *)
Definition loop_body (revalorizacion : number) (year : Z) (st : LoopState)
  : LoopState :=
  let currentRent :=
    if (1 <? year)%Z then (currentRent st * (1 + revalorizacion))%js
    else currentRent st in
  let accumulatedCashFlow := (accumulatedCashFlow st + currentRent)%js in
  {| projection :=
       projection st ++
       [ {| year := "AÃ±o " +:+ pretty year;
            cashFlow := round currentRent;
            accumulated := round accumulatedCashFlow |} ];
     accumulatedCashFlow := accumulatedCashFlow;
     currentRent := currentRent |}.

(** [for (let year = ...; year <= years; year++) body], from the given value
    of the counter on.  The counter starts at 1 and grows by 1: it is an
    integer. *)
Equations? for_loop (years : Q) (revalorizacion : number) (year : Z)
  (st : LoopState) : LoopState
  by wf (Z.to_nat (Qfloor years + 1 - year)) lt :=
  for_loop years revalorizacion year st
    with Equations.Prop.Logic.inspect (Qle_bool (inject_Z year) years) => {
    | exist _ true _ :=
        for_loop years revalorizacion (year + 1)
          (loop_body revalorizacion year st);
    | exist _ false _ := st }.
Proof.
  apply Qle_bool_iff, Qfloor_resp_le in e.
  rewrite Qfloor_Z in e. lia.
Qed.

Definition initial_state (results : Results) : LoopState :=
  {| projection := [];
     accumulatedCashFlow := 0;
     currentRent := (cashFlowMensual results * 12)%js |}.

(** The state of the variables when the loop is left. *)
Definition final_state (results : Results) (revalorizacion years : Q)
  : LoopState :=
  for_loop years revalorizacion 1 (initial_state results).

(** [generateCashFlowProjection(results, revalorizacion = 0, years = 10)];
    an argument is [None] when the caller leaves it out. *)
Definition generateCashFlowProjection (results : Results)
  (revalorizacion years : option Q) : list Point :=
  projection (final_state results (default 0 revalorizacion) (default 10 years)).

(** The loop unrolled: [n] passes from the given value of the counter on. *)
Fixpoint iterate_from (revalorizacion : number) (year : Z) (n : nat)
  (st : LoopState) : LoopState :=
  match n with
  | O => st
  | S m => iterate_from revalorizacion (year + 1) m
             (loop_body revalorizacion year st)
  end.

Definition state_after (results : Results) (revalorizacion : Q) (n : nat)
  : LoopState :=
  iterate_from revalorizacion 1 n (initial_state results).

Definition yearlyRent (results : Results) (revalorizacion : Q) (k : nat)
  : number :=
  currentRent (final_state results revalorizacion (inject_Z (Z.of_nat k))).

Definition sum_numbers (l : list number) : number := foldl add (Num 0) l.

(** The entry the pass for year [k] pushes. *)
Definition point_of (results : Results) (revalorizacion : Q) (k : nat)
  : Point :=
  let st := state_after results revalorizacion k in
  {| year := "AÃ±o " +:+ pretty (Z.of_nat k);
     cashFlow := round (currentRent st);
     accumulated := round (accumulatedCashFlow st) |}.

(** The sum of the rounded per-year figures up to entry [k] of a
    projection: round, then sum. *)
Definition round_then_sum (points : list Point) (k : nat) : number :=
  sum_numbers (cashFlow <$> take (S k) points).

(** ** The ITP table *)

(** What reading a property of the table can give: a number, [undefined],
    or a member inherited from [Object.prototype], named after the property
    it was read from. *)
Inductive value : Type :=
| VNumber (n : number)
| VUndefined
| VBuiltin (name : string).

(** The entries of the object literal [itpTable], in source order. *)
Definition itpEntries : list (string * Q) :=
  [ ("Andalucía", 0.08);
    ("Aragón", 0.08);
    ("Asturias", 0.08);
    ("Baleares", 0.08);
    ("Canarias", 0.065);
    ("Cantabria", 0.10);
    ("Castilla - La Mancha", 0.09);
    ("Castilla León", 0.08);
    ("Cataluña", 0.10);
    ("Ceuta", 0.06);
    ("Comunidad de Madrid", 0.06);
    ("Comunidad Valenciana", 0.10);
    ("Extremadura", 0.08);
    ("Galicia", 0.09);
    ("La Rioja", 0.07);
    ("Melilla", 0.06);
    ("Murcia", 0.08);
    ("Navarra", 0.06);
    ("País Vasco", 0.04) ].

(** The own properties of [itpTable]. *)
Definition itpTable : gmap string Q := list_to_map itpEntries.

(** [Object.keys(itpTable)] *)
Definition communities : list string := itpEntries.*1.

(** The properties an object literal inherits from [Object.prototype]
    (ECMAScript, Properties of the Object Prototype Object, with the legacy
    accessors of its Annex B). *)
Definition objectPrototype : list string :=
  [ "constructor"; "hasOwnProperty"; "isPrototypeOf"; "propertyIsEnumerable";
    "toLocaleString"; "toString"; "valueOf"; "__proto__";
    "__defineGetter__"; "__defineSetter__";
    "__lookupGetter__"; "__lookupSetter__" ].

(** [obj[key]] on an object literal whose own properties are [obj]: the own
    property, else the inherited one, else [undefined]. *)
Definition get (obj : gmap string Q) (key : string) : value :=
  match obj !! key with
  | Some q => VNumber (Num q)
  | None => if decide (key ∈ objectPrototype) then VBuiltin key else VUndefined
  end.

(** The boolean a value converts to. *)
Definition truthy (v : value) : bool :=
  match v with
  | VNumber (Num q) => negb (Qeq_bool q 0)
  | VNumber NaN => false
  | VNumber _ => true
  | VUndefined => false
  | VBuiltin _ => true
  end.

(** [a || b] *)
Definition or_else (a b : value) : value := if truthy a then a else b.

Definition getItpRate (community : string) : value :=
  or_else (get itpTable community) (VNumber 0.08).

(** ** Example inputs *)

(** An instance of [Math.pow] for the examples: exact on a finite base and
    a whole exponent, NaN elsewhere. *)
Definition pow_whole (b e : number) : number :=
  match b, e with
  | Num b, Num e =>
      if negb (Qeq_bool e (inject_Z (Qfloor e))) then NaN
      else if Qeq_bool b 0 && (Qfloor e <? 0)%Z then PosInf
      else Num (Qpower b (Qfloor e))
  | _, _ => NaN
  end.

(** Nothing but a monthly rent: the monthly cash flow is the rent. *)
Definition rentOnly (rent : Q) : Inputs :=
  {| precioCompra := None; itpRate := None; gastos := None;
     gastosHipoteca := None; costeReforma := None; comision := None;
     mobiliario := None; cuotaAlquiler := Some rent; revalorizacion := None;
     porcentajeFinanciado := None; plazoHipoteca := None;
     tipoInteres := None; impuestosAnuales := None; segurosAnuales := None;
     comunidadAnual := None; mantenimientoAnual := None;
     periodosVacioAnual := None |}.

(** The end-to-end scenario. *)
Definition scenario : Inputs :=
  {| precioCompra := Some 105000; itpRate := Some 0.10; gastos := Some 4000;
     gastosHipoteca := None; costeReforma := Some 20000;
     comision := Some 1500; mobiliario := Some 4000;
     cuotaAlquiler := Some 1100; revalorizacion := Some 0.02;
     porcentajeFinanciado := Some 0.5; plazoHipoteca := Some 30;
     tipoInteres := Some 0.02; impuestosAnuales := None;
     segurosAnuales := None; comunidadAnual := None;
     mantenimientoAnual := None; periodosVacioAnual := None |}.

(** A purchase financed in full, with no cost on top of the price. *)
Definition fullyFinanced : Inputs :=
  {| precioCompra := Some 100000; itpRate := Some 0; gastos := None;
     gastosHipoteca := None; costeReforma := None; comision := None;
     mobiliario := None; cuotaAlquiler := Some 1100;
     revalorizacion := Some 0.02; porcentajeFinanciado := Some 1;
     plazoHipoteca := Some 30; tipoInteres := Some 0.02;
     impuestosAnuales := None; segurosAnuales := None;
     comunidadAnual := None; mantenimientoAnual := None;
     periodosVacioAnual := None |}.

(** The scenario with the flat left empty: no rent. *)
Definition vacant : Inputs :=
  {| precioCompra := Some 105000; itpRate := Some 0.10; gastos := Some 4000;
     gastosHipoteca := None; costeReforma := Some 20000;
     comision := Some 1500; mobiliario := Some 4000;
     cuotaAlquiler := Some 0; revalorizacion := Some 0.02;
     porcentajeFinanciado := Some 0.5; plazoHipoteca := Some 30;
     tipoInteres := Some 0.02; impuestosAnuales := Some 800;
     segurosAnuales := Some 300; comunidadAnual := Some 300;
     mantenimientoAnual := None; periodosVacioAnual := None |}.

(** The scenario paid in cash: nothing financed. *)
Definition cashPurchase : Inputs :=
  {| precioCompra := Some 105000; itpRate := Some 0.10; gastos := Some 4000;
     gastosHipoteca := None; costeReforma := Some 20000;
     comision := Some 1500; mobiliario := Some 4000;
     cuotaAlquiler := Some 1100; revalorizacion := Some 0.02;
     porcentajeFinanciado := Some 0; plazoHipoteca := Some 30;
     tipoInteres := Some 0.02; impuestosAnuales := Some 800;
     segurosAnuales := Some 300; comunidadAnual := Some 300;
     mantenimientoAnual := None; periodosVacioAnual := None |}.

(** The results of the examples, with [pow_whole] for [Math.pow]. *)
Definition scenarioResults : Results := calculateInvestment pow_whole scenario.

Definition vacantResults : Results := calculateInvestment pow_whole vacant.

Definition cashPurchaseResults : Results :=
  calculateInvestment pow_whole cashPurchase.

(** A monthly cash flow of 100. *)
Definition rent100Results : Results :=
  calculateInvestment pow_whole (rentOnly 100).

(** The scenario with a [Math.pow] that returns NaN. *)
Definition brokenResults : Results :=
  calculateInvestment (fun _ _ => NaN) scenario.

(** ** Finite numbers *)

(** Neither NaN nor an infinity. *)
Definition is_finite_number (x : number) : bool :=
  match x with Num _ => true | _ => false end.

(** ** The application ([App.jsx]) *)

Module App.

(** The state [inputs] of the component: the address, the community and
    the numeric properties, none of which is [itpRate]. *)
Record State : Type := {
  direccion : string;
  comunidad : string;
  numbers : Inputs
}.

(** [{...inputs, itpRate}] *)
Definition with_itpRate (rate : Q) (inputs : Inputs) : Inputs :=
  {| precioCompra := precioCompra inputs;
     itpRate := Some rate;
     gastos := gastos inputs;
     gastosHipoteca := gastosHipoteca inputs;
     costeReforma := costeReforma inputs;
     comision := comision inputs;
     mobiliario := mobiliario inputs;
     cuotaAlquiler := cuotaAlquiler inputs;
     revalorizacion := revalorizacion inputs;
     porcentajeFinanciado := porcentajeFinanciado inputs;
     plazoHipoteca := plazoHipoteca inputs;
     tipoInteres := tipoInteres inputs;
     impuestosAnuales := impuestosAnuales inputs;
     segurosAnuales := segurosAnuales inputs;
     comunidadAnual := comunidadAnual inputs;
     mantenimientoAnual := mantenimientoAnual inputs;
     periodosVacioAnual := periodosVacioAnual inputs |}.

(** [results]: [calculateInvestment({...inputs, itpRate})] with
    [itpRate = getItpRate(inputs.comunidad)].  [None] when the rate read is
    not a finite number, which [Inputs] cannot hold. *)
Definition results (pow : number -> number -> number) (state : State)
  : option Results :=
  match getItpRate (comunidad state) with
  | VNumber (Num rate) =>
      Some (calculateInvestment pow (with_itpRate rate (numbers state)))
  | _ => None
  end.

(** [cashFlowProjection]:
    [generateCashFlowProjection(results, inputs.revalorizacion, 10)] *)
Definition cashFlowProjection (pow : number -> number -> number)
  (state : State) : option (list Point) :=
  (fun r =>
     generateCashFlowProjection r (revalorizacion (numbers state)) (Some 10))
  <$> results pow state.

(** A property of the state read in an arithmetic expression: [undefined]
    gives NaN. *)
Definition input_value (field : option Q) : number :=
  match field with
  | Some q => Num q
  | None => NaN
  end.

(** One bar of the monthly breakdown. *)
Record Item : Type := {
  name : string;
  value : number;
  fill : string
}.

Definition expenseBreakdown (results : Results) (inputs : Inputs)
  : list Item :=
  filter (fun item => (value item >? 0)%js = true)
    [ {| name := "Hipoteca";
         value := round (cuotaHipotecaMensual results);
         fill := "#c4513d" |};
      {| name := "Impuestos";
         value := round (input_value (impuestosAnuales inputs) / 12);
         fill := "#d97952" |};
      {| name := "Seguros";
         value := round (input_value (segurosAnuales inputs) / 12);
         fill := "#e8a07a" |};
      {| name := "Comunidad";
         value := round (input_value (comunidadAnual inputs) / 12);
         fill := "#b8442f" |};
      {| name := "Mantenimiento";
         value := round (input_value (mantenimientoAnual inputs) / 12);
         fill := "#9c3928" |} ].

(** [defaultInputs] *)
Definition defaultInputs : State :=
  {| direccion := "Calle xxx";
     comunidad := "Cataluña";
     numbers :=
       {| precioCompra := Some 105000; itpRate := None;
          gastos := Some 4000; gastosHipoteca := Some 0;
          costeReforma := Some 20000; comision := Some 1500;
          mobiliario := Some 4000; cuotaAlquiler := Some 1100;
          revalorizacion := Some 0.02; porcentajeFinanciado := Some 0.5;
          plazoHipoteca := Some 30; tipoInteres := Some 0.02;
          impuestosAnuales := Some 800; segurosAnuales := Some 300;
          comunidadAnual := Some 300; mantenimientoAnual := Some 0;
          periodosVacioAnual := Some 0 |} |}.

End App.

(** ** The name of the report file ([generateInvestmentPDF]) *)

Module Report.

(** A string as its UTF-16 code units, which is what the regular expression
    of the file name works on. *)
Definition units (s : string) : list N :=
  Ascii.N_of_ascii <$> String.list_ascii_of_string s.

(** [[a-zA-Z0-9]] *)
Definition alphanumeric (c : N) : bool :=
  ((48 <=? c) && (c <=? 57) || (65 <=? c) && (c <=? 90)
   || (97 <=? c) && (c <=? 122))%N.

(** [direccion.replace(/[^a-zA-Z0-9]/g, '_')] *)
Definition sanitize (direccion : list N) : list N :=
  (fun c => if alphanumeric c then c else 95%N) <$> direccion.

(** [fileName], given the value of [new Date().toISOString()]. *)
Definition fileName (direccion isoString : list N) : list N :=
  units "Informe_Inversion_" ++ sanitize direccion ++ units "_"
  ++ take 10 isoString ++ units ".pdf".

(** The characters a file name is made of here: letters, digits, [_], [-]
    and [.]. *)
Definition safe (c : N) : bool :=
  (alphanumeric c || (c =? 95) || (c =? 45) || (c =? 46))%N.

(** A digit or [-], as in the date that starts an ISO string. *)
Definition date_unit (c : N) : bool :=
  ((48 <=? c) && (c <=? 57) || (c =? 45))%N.

End Report.

(** ** The formulas in binary64 *)

(** The same source, with the numbers of the language as they are: binary64
    floating point, every operation rounded to the nearest and the
    comparisons false on NaN.  [a > 0] reads [0 <? a].  This is what the
    program computes; the rational model above is the arithmetic its
    formulas stand for. *)
Module Binary64.

Import PrimFloat.

#[local] Set Warnings "-inexact-float".

Local Open Scope float_scope.

Record Inputs : Type := {
  (* Purchase costs *)
  precioCompra : option float;
  itpRate : option float;
  gastos : option float;
  gastosHipoteca : option float;
  costeReforma : option float;
  comision : option float;
  mobiliario : option float;
  (* Income *)
  cuotaAlquiler : option float;
  revalorizacion : option float;
  (* Financing *)
  porcentajeFinanciado : option float;
  plazoHipoteca : option float;
  tipoInteres : option float;
  (* Annual expenses *)
  impuestosAnuales : option float;
  segurosAnuales : option float;
  comunidadAnual : option float;
  mantenimientoAnual : option float;
  periodosVacioAnual : option float
}.

Record Results : Type := {
  (* Purchase *)
  impuestoITP : float;
  totalCompra : float;
  (* Financing *)
  hipoteca : float;
  capitalAportar : float;
  cuotaHipotecaMensual : float;
  cuotaHipotecaAnual : float;
  interesesPromedioMensual : float;
  interesesPromedioAnual : float;
  amortizacionPromedioMensual : float;
  amortizacionPromedioAnual : float;
  (* Expenses *)
  totalGastosMensual : float;
  totalGastosAnual : float;
  (* Income *)
  ingresoAnual : float;
  (* KPIs *)
  rentabilidadBruta : float;
  rentabilidadNeta : float;
  cashFlowMensual : float;
  cashFlowAnual : float;
  per : float;
  porcentajeHipotecaAlquiler : float;
  cashFlowAlquiler : float;
  cashOnCash : float;
  roce : float;
  rentabilidadTotal : float
}.

Section Calculations.

(** [Math.pow] *)
Variable pow : float -> float -> float.

Definition calculatePMT (annualRate years principal : float) : float :=
  if (principal <=? 0) || (years <=? 0) then 0
  else if annualRate <=? 0 then principal / (years * 12)
  else
    let monthlyRate := annualRate / 12 in
    let totalPayments := years * 12 in
    principal * monthlyRate * pow (1 + monthlyRate) totalPayments
    / (pow (1 + monthlyRate) totalPayments - 1).

Definition calculateInvestment (inputs : Inputs) : Results :=
  let precioCompra := default 0 (precioCompra inputs) in
  let itpRate := default 0.10 (itpRate inputs) in
  let gastos := default 0 (gastos inputs) in
  let gastosHipoteca := default 0 (gastosHipoteca inputs) in
  let costeReforma := default 0 (costeReforma inputs) in
  let comision := default 0 (comision inputs) in
  let mobiliario := default 0 (mobiliario inputs) in
  let cuotaAlquiler := default 0 (cuotaAlquiler inputs) in
  let revalorizacion := default 0 (revalorizacion inputs) in
  let porcentajeFinanciado := default 0 (porcentajeFinanciado inputs) in
  let plazoHipoteca := default 30 (plazoHipoteca inputs) in
  let tipoInteres := default 0.02 (tipoInteres inputs) in
  let impuestosAnuales := default 0 (impuestosAnuales inputs) in
  let segurosAnuales := default 0 (segurosAnuales inputs) in
  let comunidadAnual := default 0 (comunidadAnual inputs) in
  let mantenimientoAnual := default 0 (mantenimientoAnual inputs) in
  let periodosVacioAnual := default 0 (periodosVacioAnual inputs) in
  (* Purchase *)
  let impuestoITP := precioCompra * itpRate in
  let totalCompra :=
    precioCompra + impuestoITP + gastos + gastosHipoteca + costeReforma
    + comision + mobiliario in
  (* Financing *)
  let hipoteca := precioCompra * porcentajeFinanciado in
  let capitalAportar := totalCompra - hipoteca in
  let cuotaHipotecaMensual := calculatePMT tipoInteres plazoHipoteca hipoteca in
  let cuotaHipotecaAnual := cuotaHipotecaMensual * 12 in
  let interesesPromedioMensual :=
    if (0 <? hipoteca) && (0 <? plazoHipoteca)
    then ((cuotaHipotecaMensual * 12 * plazoHipoteca) - hipoteca)
         / (plazoHipoteca * 12)
    else 0 in
  let interesesPromedioAnual := interesesPromedioMensual * 12 in
  let amortizacionPromedioMensual :=
    cuotaHipotecaMensual - interesesPromedioMensual in
  let amortizacionPromedioAnual := amortizacionPromedioMensual * 12 in
  (* Expenses *)
  let totalGastosMensual :=
    (impuestosAnuales + segurosAnuales + comunidadAnual + mantenimientoAnual
     + periodosVacioAnual) / 12 in
  let totalGastosAnual :=
    impuestosAnuales + segurosAnuales + comunidadAnual + mantenimientoAnual
    + periodosVacioAnual in
  (* Income *)
  let ingresoAnual := cuotaAlquiler * 12 in
  (* Key performance indicators *)
  let rentabilidadBruta :=
    if 0 <? totalCompra then ingresoAnual / totalCompra else 0 in
  let rentabilidadNeta :=
    if 0 <? totalCompra
    then (ingresoAnual - totalGastosAnual - interesesPromedioAnual)
         / totalCompra
    else 0 in
  let cashFlowMensual :=
    cuotaAlquiler - cuotaHipotecaMensual - totalGastosMensual in
  let cashFlowAnual := cashFlowMensual * 12 in
  let per := if 0 <? ingresoAnual then totalCompra / ingresoAnual else 0 in
  let porcentajeHipotecaAlquiler :=
    if 0 <? cuotaAlquiler then cuotaHipotecaMensual / cuotaAlquiler else 0 in
  let cashFlowAlquiler :=
    if 0 <? cuotaAlquiler then cashFlowMensual / cuotaAlquiler else 0 in
  let cashOnCash :=
    if 0 <? capitalAportar then (12 * cashFlowMensual) / capitalAportar
    else 0 in
  let roce :=
    if 0 <? capitalAportar
    then (12 * (cashFlowMensual + amortizacionPromedioMensual))
         / capitalAportar
    else 0 in
  let rentabilidadTotal :=
    if 0 <? capitalAportar
    then ((ingresoAnual - totalGastosAnual - interesesPromedioAnual)
          / capitalAportar) + revalorizacion
    else 0 in
  {| impuestoITP := impuestoITP;
     totalCompra := totalCompra;
     hipoteca := hipoteca;
     capitalAportar := capitalAportar;
     cuotaHipotecaMensual := cuotaHipotecaMensual;
     cuotaHipotecaAnual := cuotaHipotecaAnual;
     interesesPromedioMensual := interesesPromedioMensual;
     interesesPromedioAnual := interesesPromedioAnual;
     amortizacionPromedioMensual := amortizacionPromedioMensual;
     amortizacionPromedioAnual := amortizacionPromedioAnual;
     totalGastosMensual := totalGastosMensual;
     totalGastosAnual := totalGastosAnual;
     ingresoAnual := ingresoAnual;
     rentabilidadBruta := rentabilidadBruta;
     rentabilidadNeta := rentabilidadNeta;
     cashFlowMensual := cashFlowMensual;
     cashFlowAnual := cashFlowAnual;
     per := per;
     porcentajeHipotecaAlquiler := porcentajeHipotecaAlquiler;
     cashFlowAlquiler := cashFlowAlquiler;
     cashOnCash := cashOnCash;
     roce := roce;
     rentabilidadTotal := rentabilidadTotal |}.

End Calculations.

(** A loan of 70% of 80000 over 15 years that bears no interest: the
    payment does not call [Math.pow]. *)
Definition interestFree : Inputs :=
  {| precioCompra := Some 80000; itpRate := None; gastos := None;
     gastosHipoteca := None; costeReforma := None; comision := None;
     mobiliario := None; cuotaAlquiler := None; revalorizacion := None;
     porcentajeFinanciado := Some 0.7; plazoHipoteca := Some 15;
     tipoInteres := Some 0; impuestosAnuales := None;
     segurosAnuales := None; comunidadAnual := None;
     mantenimientoAnual := None; periodosVacioAnual := None |}.

End Binary64.

(** * Properties *)

(** ** Comparisons of numbers *)

Lemma gtb_leb (x y : number) : (x >? y)%js = true -> (x <=? y)%js = false.
Proof.
  unfold gtb, leb. destruct (cmp x y) as [[]|]; congruence.
Qed.

Lemma leb_gtb (x y : number) : (x <=? y)%js = true -> (x >? y)%js = false.
Proof.
  unfold gtb, leb. destruct (cmp x y) as [[]|]; congruence.
Qed.

Lemma same_zero_gtb (x : number) : x =~ Num 0 -> (x >? 0)%js = false.
Proof.
  destruct x as [q| | |]; simpl; try tauto.
  intros Hq. unfold gtb. simpl.
  apply Qeq_alt in Hq. rewrite Hq. reflexivity.
Qed.

Lemma gtb_Num (a b : Q) : (Num a >? Num b)%js = true <-> b < a.
Proof.
  unfold gtb. simpl. rewrite Qgt_alt. destruct (a ?= b); intuition congruence.
Qed.

Lemma leb_Num (a b : Q) : (Num a <=? Num b)%js = true <-> a <= b.
Proof.
  unfold leb. simpl. rewrite Qle_alt. destruct (a ?= b); intuition congruence.
Qed.

Lemma leb_Num_false (a b : Q) : b < a -> (Num a <=? Num b)%js = false.
Proof.
  intros Hlt. destruct (Num a <=? Num b)%js eqn:E; [|reflexivity].
  apply leb_Num in E. exfalso. exact (Qlt_not_le _ _ Hlt E).
Qed.

Lemma leb_Num_true (a b : Q) : a <= b -> (Num a <=? Num b)%js = true.
Proof. apply leb_Num. Qed.

(** ** Arithmetic on finite numbers *)

Lemma div_Num (a b : Q) : ~ b == 0 -> (Num a / Num b)%js = Num (a / b).
Proof.
  intros Hb. simpl. destruct (Qeq_bool b 0) eqn:E; [|reflexivity].
  apply Qeq_bool_iff in E. contradiction.
Qed.

Section CalculationsProperties.

Variable pow : number -> number -> number.

(** C2. [calculatePMT] returns 0 when [principal <= 0] or [years <= 0];
    otherwise, when [annualRate <= 0], it returns
    [principal / (years * 12)]. *)
Theorem calculatePMT_guards (annualRate years principal : number) :
  ((principal <=? 0)%js = true \/ (years <=? 0)%js = true ->
   calculatePMT pow annualRate years principal = Num 0) /\
  ((principal <=? 0)%js = false -> (years <=? 0)%js = false ->
   (annualRate <=? 0)%js = true ->
   calculatePMT pow annualRate years principal
   = (principal / (years * 12))%js).
Proof.
  unfold calculatePMT. split.
  - intros [-> | ->]; [| rewrite orb_true_r]; reflexivity.
  - intros -> -> ->. reflexivity.
Qed.

(** C3. For [principal > 0], [years > 0] and [annualRate > 0],
    [calculatePMT] returns [principal * r * (1+r)^n / ((1+r)^n - 1)] with
    [r = annualRate / 12] and [n = years * 12]. *)
Theorem calculatePMT_formula (annualRate years principal : number) :
  (principal >? 0)%js = true -> (years >? 0)%js = true ->
  (annualRate >? 0)%js = true ->
  let r := (annualRate / 12)%js in
  let n := (years * 12)%js in
  calculatePMT pow annualRate years principal
  = (principal * r * pow (1 + r) n / (pow (1 + r) n - 1))%js.
Proof.
  intros Hp Hy Hr. unfold calculatePMT.
  rewrite (gtb_leb _ _ Hp), (gtb_leb _ _ Hy), (gtb_leb _ _ Hr).
  reflexivity.
Qed.

(** *** The fields of the result, one equation each *)

Lemma rentabilidadBruta_eq (inputs : Inputs) :
  let r := calculateInvestment pow inputs in
  rentabilidadBruta r
  = (if totalCompra r >? 0 then ingresoAnual r / totalCompra r else 0)%js.
Proof. reflexivity. Qed.

Lemma rentabilidadNeta_eq (inputs : Inputs) :
  let r := calculateInvestment pow inputs in
  rentabilidadNeta r
  = (if totalCompra r >? 0
     then (ingresoAnual r - totalGastosAnual r - interesesPromedioAnual r)
          / totalCompra r
     else 0)%js.
Proof. reflexivity. Qed.

Lemma cashOnCash_eq (inputs : Inputs) :
  let r := calculateInvestment pow inputs in
  cashOnCash r
  = (if capitalAportar r >? 0
     then (12 * cashFlowMensual r) / capitalAportar r else 0)%js.
Proof. reflexivity. Qed.

Lemma roce_eq (inputs : Inputs) :
  let r := calculateInvestment pow inputs in
  roce r
  = (if capitalAportar r >? 0
     then (12 * (cashFlowMensual r + amortizacionPromedioMensual r))
          / capitalAportar r
     else 0)%js.
Proof. reflexivity. Qed.

Lemma rentabilidadTotal_eq (inputs : Inputs) :
  let r := calculateInvestment pow inputs in
  rentabilidadTotal r
  = (if capitalAportar r >? 0
     then ((ingresoAnual r - totalGastosAnual r - interesesPromedioAnual r)
           / capitalAportar r) + field_or 0 (revalorizacion inputs)
     else 0)%js.
Proof. reflexivity. Qed.

Lemma hipoteca_eq (inputs : Inputs) :
  hipoteca (calculateInvestment pow inputs)
  = Num (default 0 (precioCompra inputs)
         * default 0 (porcentajeFinanciado inputs)).
Proof. reflexivity. Qed.

Lemma cuotaHipotecaMensual_eq (inputs : Inputs) :
  let r := calculateInvestment pow inputs in
  cuotaHipotecaMensual r
  = calculatePMT pow (field_or 0.02 (tipoInteres inputs))
      (field_or 30 (plazoHipoteca inputs)) (hipoteca r).
Proof. reflexivity. Qed.

Lemma amortizacionPromedioMensual_eq (inputs : Inputs) :
  let r := calculateInvestment pow inputs in
  let plazoHipoteca := field_or 30 (plazoHipoteca inputs) in
  amortizacionPromedioMensual r
  = (cuotaHipotecaMensual r
     - (if (hipoteca r >? 0) && (plazoHipoteca >? 0)
        then ((cuotaHipotecaMensual r * 12 * plazoHipoteca) - hipoteca r)
             / (plazoHipoteca * 12)
        else 0))%js.
Proof. reflexivity. Qed.

(** C4. When [totalCompra] is 0, [rentabilidadBruta] and [rentabilidadNeta]
    are the number 0: the guard [totalCompra > 0] keeps the division by
    zero from being evaluated. *)
Theorem yields_zero_without_purchase (inputs : Inputs) :
  let r := calculateInvestment pow inputs in
  totalCompra r =~ Num 0 ->
  rentabilidadBruta r = Num 0 /\ rentabilidadNeta r = Num 0.
Proof.
  intros r Hzero. subst r.
  rewrite rentabilidadBruta_eq, rentabilidadNeta_eq. cbv zeta.
  rewrite (same_zero_gtb _ Hzero). split; reflexivity.
Qed.

(** C5. When [capitalAportar <= 0], [cashOnCash], [roce] and
    [rentabilidadTotal] are the number 0, whatever [revalorizacion] is: the
    revaluation is not returned on its own. *)
Theorem returns_zero_without_capital (inputs : Inputs) :
  let r := calculateInvestment pow inputs in
  (capitalAportar r <=? 0)%js = true ->
  cashOnCash r = Num 0 /\ roce r = Num 0 /\ rentabilidadTotal r = Num 0.
Proof.
  intros r Hle. subst r.
  rewrite cashOnCash_eq, roce_eq, rentabilidadTotal_eq. cbv zeta.
  rewrite (leb_gtb _ _ Hle). repeat split; reflexivity.
Qed.

(** C6. [totalCompra] is the purchase price plus the ITP on it plus the
    five other purchase costs, [hipoteca] the financed fraction of the price,
    [capitalAportar] their difference and [ingresoAnual] twelve monthly
    rents; on the end-to-end scenario they are 145000, 52500, 92500 and
    13200. *)
Theorem purchase_and_financing (inputs : Inputs) :
  let r := calculateInvestment pow inputs in
  let precioCompra := default 0 (precioCompra inputs) in
  let total :=
    precioCompra + precioCompra * default 0.10 (itpRate inputs)
    + default 0 (gastos inputs) + default 0 (gastosHipoteca inputs)
    + default 0 (costeReforma inputs) + default 0 (comision inputs)
    + default 0 (mobiliario inputs) in
  let loan := precioCompra * default 0 (porcentajeFinanciado inputs) in
  let s := calculateInvestment pow scenario in
  (totalCompra r = Num total /\
   hipoteca r = Num loan /\
   capitalAportar r = Num (total - loan) /\
   ingresoAnual r = Num (default 0 (cuotaAlquiler inputs) * 12)) /\
  (totalCompra s =~ Num 145000 /\
   hipoteca s =~ Num 52500 /\
   capitalAportar s =~ Num 92500 /\
   ingresoAnual s =~ Num 13200).
Proof. split; repeat split. Qed.

(** *** The averaged split of the payment *)

Lemma average_principal (cuota loan plazo : Q) :
  0 < plazo ->
  let amortizacion :=
    (Num cuota
     - ((Num cuota * 12 * Num plazo) - Num loan) / (Num plazo * 12))%js in
  amortizacion =~ Num (loan / (plazo * 12)) /\
  (amortizacion * Num plazo * 12)%js =~ Num loan.
Proof.
  intros Hplazo amortizacion. subst amortizacion.
  assert (Hn : ~ plazo == 0).
  { intros H0. rewrite H0 in Hplazo. exact (Qlt_irrefl 0 Hplazo). }
  assert (Hden : ~ plazo * 12 == 0).
  { intros H0. apply Hn. apply Qmult_integral in H0.
    destruct H0 as [H0 | H0]; [assumption | discriminate]. }
  change (Num cuota * 12 * Num plazo - Num loan)%js
    with (Num (cuota * 12 * plazo - loan)).
  change (Num plazo * 12)%js with (Num (plazo * 12)).
  rewrite (div_Num _ _ Hden). simpl. split; field; assumption.
Qed.

End CalculationsProperties.


(** *** The averaged principal *)

Section AveragedPrincipal.

Import PrimFloat.

(** C10, as amended.  With a loan and a positive term the program computes
    the averaged monthly principal as the payment less
    [((payment * 12 * plazoHipoteca) - hipoteca) / (plazoHipoteca * 12)]
    (first part, in binary64).  In exact arithmetic, and when the payment
    is a finite number, that is [hipoteca / (plazoHipoteca * 12)] at every
    interest rate, so that over the whole term it repays the loan (second
    part). *)
Theorem average_principal_in_exact_arithmetic :
  (forall (pow : PrimFloat.float -> PrimFloat.float -> PrimFloat.float)
     (inputs : Binary64.Inputs),
     let r := Binary64.calculateInvestment pow inputs in
     let plazo := default 30%float (Binary64.plazoHipoteca inputs) in
     PrimFloat.ltb 0 (Binary64.hipoteca r) = true ->
     PrimFloat.ltb 0 plazo = true ->
     Binary64.amortizacionPromedioMensual r
     = (Binary64.cuotaHipotecaMensual r
        - ((Binary64.cuotaHipotecaMensual r * 12 * plazo)
           - Binary64.hipoteca r)
          / (plazo * 12))%float) /\
  (forall (pow : number -> number -> number) (inputs : Inputs),
     let r := calculateInvestment pow inputs in
     let plazo := default 30 (plazoHipoteca inputs) in
     (hipoteca r >? 0)%js = true ->
     (Num plazo >? 0)%js = true ->
     is_finite_number (cuotaHipotecaMensual r) = true ->
     amortizacionPromedioMensual r =~ (hipoteca r / (Num plazo * 12))%js /\
     (amortizacionPromedioMensual r * Num plazo * 12)%js =~ hipoteca r).
Proof.
  split.
  - intros pow inputs r plazo Hloan Hplazo. subst r plazo.
    unfold Binary64.calculateInvestment in *.
    cbn [Binary64.hipoteca Binary64.cuotaHipotecaMensual
         Binary64.amortizacionPromedioMensual] in *.
    cbv zeta. rewrite Hloan, Hplazo. reflexivity.
  - intros pow inputs r plazo Hloan Hplazo Hfinite. subst r.
    rewrite amortizacionPromedioMensual_eq. cbv zeta.
    unfold field_or. fold plazo. rewrite Hloan, Hplazo. simpl andb.
    destruct (cuotaHipotecaMensual (calculateInvestment pow inputs))
      as [cuota | | |]; try discriminate.
    rewrite hipoteca_eq in *.
    set (loan := default 0 (precioCompra inputs)
                 * default 0 (porcentajeFinanciado inputs)) in *.
    apply gtb_Num in Hloan, Hplazo.
    destruct (average_principal cuota loan plazo Hplazo) as [Hm Ht].
    split; [|exact Ht].
    change (Num plazo * 12)%js with (Num (plazo * 12)).
    rewrite div_Num; [exact Hm|].
    intros H0. apply (Qlt_irrefl 0). rewrite <- H0 at 2.
    apply Qmult_lt_0_compat; [assumption | reflexivity].
Qed.

Lemma average_principal_in_exact_arithmetic_witness :
  Binary64.amortizacionPromedioMensual
    (Binary64.calculateInvestment (fun b _ => b) Binary64.interestFree)
  = (Binary64.cuotaHipotecaMensual
       (Binary64.calculateInvestment (fun b _ => b) Binary64.interestFree)
     - ((Binary64.cuotaHipotecaMensual
           (Binary64.calculateInvestment (fun b _ => b)
              Binary64.interestFree)
         * 12 * 15)
        - Binary64.hipoteca
            (Binary64.calculateInvestment (fun b _ => b)
               Binary64.interestFree))
       / (15 * 12))%float /\
  amortizacionPromedioMensual (calculateInvestment pow_whole scenario)
  =~ (hipoteca (calculateInvestment pow_whole scenario) / (Num 30 * 12))%js /\
  (amortizacionPromedioMensual (calculateInvestment pow_whole scenario)
   * Num 30 * 12)%js
  =~ hipoteca (calculateInvestment pow_whole scenario).
Proof.
  split.
  - apply (proj1 average_principal_in_exact_arithmetic (fun b _ => b)
             Binary64.interestFree); vm_compute; reflexivity.
  - apply (proj2 average_principal_in_exact_arithmetic pow_whole scenario);
      vm_compute; reflexivity.
Defined.

(** C10, as stated, fails on the program: in binary64, for a loan of 70% of
    80000 over 15 years at no interest, the payment is 311.1111111111111
    and the averaged interest -4.04e-14, so that the averaged principal is
    311.11111111111114 while [hipoteca / (plazoHipoteca * 12)] is
    311.1111111111111. *)
Lemma average_principal_not_exact_in_binary64 :
  ~ (forall (pow : PrimFloat.float -> PrimFloat.float -> PrimFloat.float)
       (inputs : Binary64.Inputs),
       let r := Binary64.calculateInvestment pow inputs in
       let plazo := default 30%float (Binary64.plazoHipoteca inputs) in
       PrimFloat.ltb 0 (Binary64.hipoteca r) = true ->
       PrimFloat.ltb 0 plazo = true ->
       PrimFloat.eqb (Binary64.amortizacionPromedioMensual r)
         (Binary64.hipoteca r / (plazo * 12))%float = true /\
       PrimFloat.eqb
         (Binary64.amortizacionPromedioMensual r * plazo * 12)%float
         (Binary64.hipoteca r) = true).
Proof.
  intros H.
  specialize (H (fun b _ => b) Binary64.interestFree).
  cbv zeta in H.
  destruct (H ltac:(vm_compute; reflexivity) ltac:(vm_compute; reflexivity))
    as [Hexact _].
  vm_compute in Hexact. discriminate Hexact.
Qed.

(** The figures of that example. *)
Lemma interest_free_in_binary64 :
  let r := Binary64.calculateInvestment (fun b _ => b) Binary64.interestFree in
  Binary64.hipoteca r = 56000%float /\
  Binary64.cuotaHipotecaMensual r = 311.11111111111109%float /\
  Binary64.amortizacionPromedioMensual r = 311.11111111111114%float /\
  PrimFloat.ltb (Binary64.interesesPromedioMensual r) 0 = true.
Proof. vm_compute. repeat split. Qed.

End AveragedPrincipal.

(** *** The theorems at concrete inputs *)

Lemma calculatePMT_guards_witness :
  calculatePMT pow_whole 0.02 30 0 = Num 0 /\
  calculatePMT pow_whole 0 30 36000 = (36000 / (30 * 12))%js.
Proof.
  split.
  - apply (proj1 (calculatePMT_guards pow_whole 0.02 30 0)).
    left. reflexivity.
  - apply (proj2 (calculatePMT_guards pow_whole 0 30 36000)); reflexivity.
Defined.

Lemma calculatePMT_formula_witness :
  calculatePMT pow_whole 0.02 30 52500
  = (52500 * (0.02 / 12) * pow_whole (1 + 0.02 / 12) (30 * 12)
     / (pow_whole (1 + 0.02 / 12) (30 * 12) - 1))%js.
Proof.
  apply (calculatePMT_formula pow_whole 0.02 30 52500); reflexivity.
Defined.

(** The monthly payment of a loan of 52500 at 2% over 30 years
    lies between 194.04 and 194.06. *)
Lemma calculatePMT_fixture :
  exists cuota : Q,
    calculatePMT pow_whole 0.02 30 52500 = Num cuota /\
    194.04 < cuota < 194.06.
Proof.
  eexists. split; [vm_compute; reflexivity|].
  split; reflexivity.
Qed.

Lemma yields_zero_without_purchase_witness :
  totalCompra (calculateInvestment pow_whole (rentOnly 1100)) =~ Num 0 /\
  rentabilidadBruta (calculateInvestment pow_whole (rentOnly 1100)) = Num 0 /\
  rentabilidadNeta (calculateInvestment pow_whole (rentOnly 1100)) = Num 0.
Proof.
  split; [reflexivity|].
  apply (yields_zero_without_purchase pow_whole (rentOnly 1100)).
  reflexivity.
Defined.

(** There the division the guard skips would give +Infinity. *)
Lemma unguarded_yield_is_infinite :
  (ingresoAnual (calculateInvestment pow_whole (rentOnly 1100))
   / totalCompra (calculateInvestment pow_whole (rentOnly 1100)))%js
  = PosInf.
Proof. reflexivity. Qed.

Lemma returns_zero_without_capital_witness :
  (capitalAportar (calculateInvestment pow_whole fullyFinanced) <=? 0)%js
  = true /\
  cashOnCash (calculateInvestment pow_whole fullyFinanced) = Num 0 /\
  roce (calculateInvestment pow_whole fullyFinanced) = Num 0 /\
  rentabilidadTotal (calculateInvestment pow_whole fullyFinanced) = Num 0.
Proof.
  split; [reflexivity|].
  apply (returns_zero_without_capital pow_whole fullyFinanced).
  reflexivity.
Defined.

(** ** The loop of the projection *)

Lemma Qle_bool_floor (year : Z) (years : Q) :
  Qle_bool (inject_Z year) years = true <-> (year <= Qfloor years)%Z.
Proof.
  rewrite Qle_bool_iff. split.
  - intros H. apply Qfloor_resp_le in H. now rewrite Qfloor_Z in H.
  - intros H. apply Qle_trans with (inject_Z (Qfloor years)).
    + now rewrite <- Zle_Qle.
    + apply Qfloor_le.
Qed.

Lemma for_loop_unroll (years : Q) (revalorizacion : number) (year : Z)
  (st : LoopState) :
  for_loop years revalorizacion year st
  = iterate_from revalorizacion year
      (Z.to_nat (Qfloor years + 1 - year)) st.
Proof.
  funelim (for_loop years revalorizacion year st).
  - pose proof (proj1 (Qle_bool_floor _ _) e) as Hle.
    match goal with
    | |- _ = iterate_from _ ?y (Z.to_nat ?m) _ =>
        replace (Z.to_nat m) with (S (Z.to_nat (Qfloor years + 1 - (y + 1))))
          by lia
    end.
    simpl. assumption.
  - match goal with
    | |- _ = iterate_from _ ?y (Z.to_nat ?m) _ =>
        assert (Hlt : (Qfloor years < y)%Z);
        [ destruct (Z.lt_ge_cases (Qfloor years) y) as [Hc | Hc];
          [ exact Hc | apply Qle_bool_floor in Hc; congruence ]
        | replace (Z.to_nat m) with O by lia ]
    end.
    reflexivity.
Qed.

Lemma iterate_from_snoc (revalorizacion : number) (n : nat) :
  forall (year : Z) (st : LoopState),
    iterate_from revalorizacion year (S n) st
    = loop_body revalorizacion (year + Z.of_nat n)
        (iterate_from revalorizacion year n st).
Proof.
  induction n as [|n IH]; intros year st.
  - simpl. now rewrite Z.add_0_r.
  - change (iterate_from revalorizacion year (S (S n)) st)
      with (iterate_from revalorizacion (year + 1) (S n)
              (loop_body revalorizacion year st)).
    rewrite IH. simpl iterate_from at 2.
    f_equal. lia.
Qed.

Lemma final_state_after (results : Results) (revalorizacion years : Q) :
  final_state results revalorizacion years
  = state_after results revalorizacion (Z.to_nat (Qfloor years)).
Proof.
  unfold final_state, state_after. rewrite for_loop_unroll.
  f_equal. lia.
Qed.

Lemma state_after_S (results : Results) (revalorizacion : Q) (n : nat) :
  state_after results revalorizacion (S n)
  = loop_body revalorizacion (Z.of_nat (S n))
      (state_after results revalorizacion n).
Proof.
  unfold state_after. rewrite iterate_from_snoc. f_equal. lia.
Qed.

Lemma yearlyRent_after (results : Results) (revalorizacion : Q) (k : nat) :
  yearlyRent results revalorizacion k
  = currentRent (state_after results revalorizacion k).
Proof.
  unfold yearlyRent. rewrite final_state_after, Qfloor_Z, Nat2Z.id.
  reflexivity.
Qed.

Lemma projection_after_S (results : Results) (revalorizacion : Q) (n : nat) :
  projection (state_after results revalorizacion (S n))
  = projection (state_after results revalorizacion n)
    ++ [point_of results revalorizacion (S n)].
Proof.
  unfold point_of. rewrite state_after_S. reflexivity.
Qed.

Lemma length_projection_after (results : Results) (revalorizacion : Q)
  (n : nat) :
  length (projection (state_after results revalorizacion n)) = n.
Proof.
  induction n as [|n IH]; [reflexivity|].
  rewrite projection_after_S, length_app, IH. simpl. lia.
Qed.

Lemma lookup_projection_after (results : Results) (revalorizacion : Q)
  (n k : nat) (p : Point) :
  projection (state_after results revalorizacion n) !! k = Some p ->
  (k < n)%nat /\ p = point_of results revalorizacion (S k).
Proof.
  induction n as [|n IH]; [discriminate|].
  rewrite projection_after_S. intros Hk.
  apply lookup_app_Some in Hk as [Hk | [Hlen Hk]].
  - destruct (IH Hk). split; [lia | assumption].
  - rewrite length_projection_after in Hlen, Hk.
    apply list_lookup_singleton_Some in Hk as [Hk <-].
    replace k with n by lia. split; [lia | reflexivity].
Qed.

Lemma currentRent_after_1 (results : Results) (revalorizacion : Q) :
  currentRent (state_after results revalorizacion 1)
  = (cashFlowMensual results * 12)%js.
Proof. reflexivity. Qed.

Lemma currentRent_after_SS (results : Results) (revalorizacion : Q)
  (n : nat) :
  currentRent (state_after results revalorizacion (S (S n)))
  = (currentRent (state_after results revalorizacion (S n))
     * (1 + Num revalorizacion))%js.
Proof.
  rewrite (state_after_S _ _ (S n)). unfold loop_body at 1.
  replace (1 <? Z.of_nat (S (S n)))%Z with true
    by (symmetry; apply Z.ltb_lt; lia).
  reflexivity.
Qed.

Lemma sum_numbers_snoc (l : list number) (x : number) :
  sum_numbers (l ++ [x]) = (sum_numbers l + x)%js.
Proof. unfold sum_numbers. rewrite foldl_app. reflexivity. Qed.

Lemma accumulatedCashFlow_after (results : Results) (revalorizacion : Q)
  (n : nat) :
  accumulatedCashFlow (state_after results revalorizacion n)
  = sum_numbers
      ((fun k => currentRent (state_after results revalorizacion k))
       <$> seq 1 n).
Proof.
  induction n as [|n IH]; [reflexivity|].
  rewrite seq_S, fmap_app. cbn [fmap list_fmap].
  rewrite sum_numbers_snoc, <- IH.
  change (1 + n)%nat with (S n). rewrite (state_after_S _ _ n). reflexivity.
Qed.

Lemma projection_length_floor (results : Results)
  (revalorizacion : option Q) (years : Q) :
  length (generateCashFlowProjection results revalorizacion (Some years))
  = Z.to_nat (Qfloor years).
Proof.
  unfold generateCashFlowProjection. simpl default.
  rewrite final_state_after. apply length_projection_after.
Qed.

(** Left out, [years] is 10: ten entries. *)
Lemma projection_default_years (results : Results)
  (revalorizacion : option Q) :
  length (generateCashFlowProjection results revalorizacion None) = 10%nat.
Proof.
  unfold generateCashFlowProjection. simpl default.
  rewrite final_state_after. apply length_projection_after.
Qed.

(** ** The projection *)

(** C7. The projection has [years] entries when [years] is a whole number
    of at least 1, and none when [years <= 0]. *)
Theorem projection_points (results : Results) (revalorizacion : option Q)
  (years : Q) :
  (forall n : Z, years == inject_Z n -> (1 <= n)%Z ->
     Z.of_nat
       (length (generateCashFlowProjection results revalorizacion (Some years)))
     = n) /\
  (years <= 0 ->
   generateCashFlowProjection results revalorizacion (Some years) = []).
Proof.
  split.
  - intros n Hn Hpos. rewrite projection_length_floor.
    rewrite Hn, Qfloor_Z. lia.
  - intros Hle. apply length_zero_iff_nil.
    rewrite projection_length_floor.
    apply Qfloor_resp_le in Hle. change (Qfloor 0) with 0%Z in Hle. lia.
Qed.

Lemma lookup_projection_after_lt (results : Results) (revalorizacion : Q)
  (n k : nat) :
  (k < n)%nat ->
  projection (state_after results revalorizacion n) !! k
  = Some (point_of results revalorizacion (S k)).
Proof.
  intros Hk.
  destruct (lookup_lt_is_Some_2
              (projection (state_after results revalorizacion n)) k)
    as [p Hp].
  { now rewrite length_projection_after. }
  rewrite Hp. f_equal. now apply lookup_projection_after in Hp as [_ ->].
Qed.

(** C8. The unrounded cash flow of year 1 is the monthly cash flow times
    twelve, with no growth; that of a later year is the previous year's
    times [1 + revalorizacion], whatever the sign of the rate; and a
    projection over at least [k + 1] years has an entry for year [k + 1],
    which holds that year's cash flow, rounded. *)
Theorem rent_compounds (results : Results) (revalorizacion : Q) :
  yearlyRent results revalorizacion 1 = (cashFlowMensual results * 12)%js /\
  (forall k : nat, (1 <= k)%nat ->
     yearlyRent results revalorizacion (S k)
     = (yearlyRent results revalorizacion k * (1 + Num revalorizacion))%js) /\
  (forall (years : Q) (k : nat),
     inject_Z (Z.of_nat (S k)) <= years ->
     exists p : Point,
       generateCashFlowProjection results (Some revalorizacion) (Some years)
         !! k = Some p /\
       cashFlow p = round (yearlyRent results revalorizacion (S k))).
Proof.
  split; [|split].
  - rewrite yearlyRent_after. apply currentRent_after_1.
  - intros [|k] Hk; [lia|]. rewrite !yearlyRent_after.
    apply currentRent_after_SS.
  - intros years k Hk.
    exists (point_of results revalorizacion (S k)). split.
    + unfold generateCashFlowProjection. simpl default.
      rewrite final_state_after. apply lookup_projection_after_lt.
      apply Qfloor_resp_le in Hk. rewrite Qfloor_Z in Hk. lia.
    + rewrite yearlyRent_after. reflexivity.
Qed.

(** C1, as amended.  The [accumulated] of year [k] is the rounded running
    sum of the unrounded cash flows of the years up to [k]: the sum is
    taken first and rounded last.  On a monthly cash flow of 100 growing by
    2% over 3 years it is 1200, 2424, 3672. *)
Theorem accumulated_rounds_the_sum :
  (forall (results : Results) (revalorizacion years : Q) (k : nat)
     (p : Point),
     generateCashFlowProjection results (Some revalorizacion) (Some years)
       !! k = Some p ->
     accumulated p
     = round (sum_numbers (yearlyRent results revalorizacion <$> seq 1 (S k))))
  /\
  accumulated
    <$> generateCashFlowProjection
          (calculateInvestment pow_whole (rentOnly 100)) (Some 0.02) (Some 3)
  = [Num 1200; Num 2424; Num 3672].
Proof.
  split; [|vm_compute; reflexivity].
  intros results revalorizacion years k p Hp.
  unfold generateCashFlowProjection in Hp.
  simpl default in Hp. rewrite final_state_after in Hp.
  apply lookup_projection_after in Hp as [_ ->].
  unfold point_of. cbn [accumulated].
  rewrite accumulatedCashFlow_after. do 2 f_equal.
  apply list_fmap_ext. intros i x _.
  symmetry. apply yearlyRent_after.
Qed.

(** C1, as stated, fails: on a monthly cash flow of 100.04 that does not
    grow, the second year's [accumulated] is 2401 (the rounded 2400.96),
    not the 2400 that the two rounded cash flows of 1200 add up to. *)
Lemma accumulated_is_not_sum_of_rounded :
  ~ (forall (results : Results) (revalorizacion years : Q) (k : nat)
       (p : Point),
       let points :=
         generateCashFlowProjection results (Some revalorizacion)
           (Some years) in
       points !! k = Some p -> accumulated p =~ round_then_sum points k).
Proof.
  intros H.
  specialize (H (calculateInvestment pow_whole (rentOnly 100.04)) 0 2 1%nat
                {| year := "AÃ±o 2"; cashFlow := 1200; accumulated := 2401 |}).
  cbv zeta in H. specialize (H ltac:(vm_compute; reflexivity)).
  vm_compute in H. discriminate H.
Qed.


Lemma projection_points_witness :
  Z.of_nat
    (length
       (generateCashFlowProjection (calculateInvestment pow_whole scenario)
          (Some 0.02) (Some 3)))
  = 3%Z /\
  generateCashFlowProjection (calculateInvestment pow_whole scenario)
    (Some 0.02) (Some 0)
  = [].
Proof.
  split.
  - apply (proj1 (projection_points _ (Some 0.02) 3) 3%Z);
      [reflexivity | lia].
  - apply (proj2 (projection_points _ (Some 0.02) 0)). apply Qle_refl.
Defined.

Lemma rent_compounds_witness :
  yearlyRent (calculateInvestment pow_whole (rentOnly 100)) 0.02 2
  = (yearlyRent (calculateInvestment pow_whole (rentOnly 100)) 0.02 1
     * (1 + Num 0.02))%js /\
  exists p : Point,
    generateCashFlowProjection (calculateInvestment pow_whole (rentOnly 100))
      (Some 0.02) (Some 3) !! 2%nat = Some p /\
    cashFlow p
    = round (yearlyRent (calculateInvestment pow_whole (rentOnly 100)) 0.02 3).
Proof.
  split.
  - apply (proj1 (proj2 (rent_compounds _ 0.02)) 1%nat). lia.
  - apply (proj2 (proj2 (rent_compounds _ 0.02)) 3 2%nat). apply Qle_refl.
Defined.

(** There the three entries hold 1200, 1224 and 1248, the last rounded from
    1248.48. *)
Lemma rent_compounds_example :
  cashFlow
    <$> generateCashFlowProjection
          (calculateInvestment pow_whole (rentOnly 100)) (Some 0.02) (Some 3)
  = [Num 1200; Num 1224; Num 1248] /\
  yearlyRent (calculateInvestment pow_whole (rentOnly 100)) 0.02 3
  =~ Num 1248.48.
Proof. split; vm_compute; reflexivity. Qed.

Lemma accumulated_rounds_the_sum_witness :
  accumulated {| year := "AÃ±o 3"; cashFlow := 1248; accumulated := 3672 |}
  = round
      (sum_numbers
         (yearlyRent (calculateInvestment pow_whole (rentOnly 100)) 0.02
          <$> seq 1 3)).
Proof.
  apply (proj1 accumulated_rounds_the_sum _ 0.02 3 2%nat).
  vm_compute. reflexivity.
Defined.

(** ** The ITP table *)

Lemma itpTable_rates_nonzero (name : string) (q : Q) :
  itpTable !! name = Some q -> Qeq_bool q 0 = false.
Proof.
  intros H. apply elem_of_list_to_map_2 in H. unfold itpEntries in H.
  repeat (apply elem_of_cons in H as [[= _ ->] | H]; [reflexivity|]).
  inversion H.
Qed.

(** X17. For a key of the table, [getItpRate] returns the rate stored. *)
Lemma getItpRate_key (name : string) (q : Q) :
  itpTable !! name = Some q -> getItpRate name = VNumber (Num q).
Proof.
  intros H. unfold getItpRate, get, or_else. rewrite H. simpl.
  rewrite (itpTable_rates_nonzero _ _ H). reflexivity.
Qed.

(** X18. For a name that is neither a key of the table nor a property of
    [Object.prototype], [getItpRate] returns 0.08. *)
Lemma getItpRate_fallback (name : string) :
  itpTable !! name = None -> name ∉ objectPrototype ->
  getItpRate name = VNumber (Num 0.08).
Proof.
  intros H Hproto. unfold getItpRate, get, or_else. rewrite H.
  destruct (decide (name ∈ objectPrototype)); [contradiction|reflexivity].
Qed.

(** C9 fails on the code: [toString] is not a key of the table, yet
    [getItpRate] does not return the fallback 0.08 for it, but the member
    the table inherits under that name. *)
Theorem getItpRate_inherited_name :
  itpTable !! "toString" = None /\
  getItpRate "toString" = VBuiltin "toString" /\
  getItpRate "toString" <> VNumber (Num 0.08).
Proof.
  split; [|split]; [vm_compute; reflexivity | vm_compute; reflexivity |].
  vm_compute. discriminate.
Qed.

(** * Further properties of the formulas *)

(** ** Finite arithmetic *)

Lemma add_Num (a b : Q) : (Num a + Num b)%js = Num (a + b).
Proof. reflexivity. Qed.

Lemma sub_Num (a b : Q) : (Num a - Num b)%js = Num (a - b).
Proof. reflexivity. Qed.

Lemma mul_Num (a b : Q) : (Num a * Num b)%js = Num (a * b).
Proof. reflexivity. Qed.

Lemma div_Num_12 (a : Q) : (Num a / 12)%js = Num (a / 12).
Proof. reflexivity. Qed.

Lemma Qpos_neq_0 (a : Q) : 0 < a -> ~ a == 0.
Proof. intros Ha H0. rewrite H0 in Ha. exact (Qlt_irrefl 0 Ha). Qed.

Lemma div_Num_pos (a b : Q) :
  (Num b >? 0)%js = true -> (Num a / Num b)%js = Num (a / b).
Proof. intros Hb. apply div_Num, Qpos_neq_0, gtb_Num, Hb. Qed.

Section FurtherCalculations.

Variable pow : number -> number -> number.

(** *** More fields of the result, one equation each *)

Lemma totalCompra_Num (inputs : Inputs) :
  exists q : Q, totalCompra (calculateInvestment pow inputs) = Num q.
Proof. eexists. reflexivity. Qed.

Lemma capitalAportar_Num (inputs : Inputs) :
  exists q : Q, capitalAportar (calculateInvestment pow inputs) = Num q.
Proof. eexists. reflexivity. Qed.

Lemma totalGastosAnual_Num (inputs : Inputs) :
  exists q : Q, totalGastosAnual (calculateInvestment pow inputs) = Num q.
Proof. eexists. reflexivity. Qed.

Lemma totalGastosMensual_Num (inputs : Inputs) :
  exists q : Q,
    totalGastosAnual (calculateInvestment pow inputs) = Num q /\
    totalGastosMensual (calculateInvestment pow inputs) = Num (q / 12).
Proof. eexists. split; reflexivity. Qed.

Lemma ingresoAnual_eq (inputs : Inputs) :
  ingresoAnual (calculateInvestment pow inputs)
  = Num (default 0 (cuotaAlquiler inputs) * 12).
Proof. reflexivity. Qed.

Lemma interesesPromedioMensual_eq (inputs : Inputs) :
  let r := calculateInvestment pow inputs in
  let plazoHipoteca := field_or 30 (plazoHipoteca inputs) in
  interesesPromedioMensual r
  = (if (hipoteca r >? 0) && (plazoHipoteca >? 0)
     then ((cuotaHipotecaMensual r * 12 * plazoHipoteca) - hipoteca r)
          / (plazoHipoteca * 12)
     else 0)%js.
Proof. reflexivity. Qed.

Lemma amortizacion_eq (inputs : Inputs) :
  let r := calculateInvestment pow inputs in
  amortizacionPromedioMensual r
  = (cuotaHipotecaMensual r - interesesPromedioMensual r)%js.
Proof. reflexivity. Qed.

Lemma cashFlowMensual_eq (inputs : Inputs) :
  let r := calculateInvestment pow inputs in
  cashFlowMensual r
  = (field_or 0 (cuotaAlquiler inputs) - cuotaHipotecaMensual r
     - totalGastosMensual r)%js.
Proof. reflexivity. Qed.

Lemma per_eq (inputs : Inputs) :
  let r := calculateInvestment pow inputs in
  per r = (if ingresoAnual r >? 0 then totalCompra r / ingresoAnual r else 0)%js.
Proof. reflexivity. Qed.

Lemma porcentajeHipotecaAlquiler_eq (inputs : Inputs) :
  let r := calculateInvestment pow inputs in
  let cuotaAlquiler := field_or 0 (cuotaAlquiler inputs) in
  porcentajeHipotecaAlquiler r
  = (if cuotaAlquiler >? 0 then cuotaHipotecaMensual r / cuotaAlquiler
     else 0)%js.
Proof. reflexivity. Qed.

Lemma cashFlowAlquiler_eq (inputs : Inputs) :
  let r := calculateInvestment pow inputs in
  let cuotaAlquiler := field_or 0 (cuotaAlquiler inputs) in
  cashFlowAlquiler r
  = (if cuotaAlquiler >? 0 then cashFlowMensual r / cuotaAlquiler else 0)%js.
Proof. reflexivity. Qed.

Lemma calculatePMT_no_principal (annualRate years principal : number) :
  (principal <=? 0)%js = true ->
  calculatePMT pow annualRate years principal = Num 0.
Proof. intros H. unfold calculatePMT. rewrite H. reflexivity. Qed.

(** X1. Without a rent ([cuotaAlquiler <= 0]) the three ratios that divide
    by the rent or by the annual income are the number 0. *)
Theorem ratios_zero_without_rent (inputs : Inputs) :
  let r := calculateInvestment pow inputs in
  default 0 (cuotaAlquiler inputs) <= 0 ->
  per r = Num 0 /\
  porcentajeHipotecaAlquiler r = Num 0 /\
  cashFlowAlquiler r = Num 0.
Proof.
  intros r Hrent. subst r.
  rewrite per_eq, porcentajeHipotecaAlquiler_eq, cashFlowAlquiler_eq.
  cbv zeta. rewrite ingresoAnual_eq. unfold field_or.
  assert (Hyear : default 0 (cuotaAlquiler inputs) * 12 <= 0).
  { apply Qle_trans with (0 * 12); [|discriminate].
    apply Qmult_le_compat_r; [assumption | discriminate]. }
  rewrite (leb_gtb _ _ (leb_Num_true _ _ Hrent)).
  rewrite (leb_gtb _ _ (leb_Num_true _ _ Hyear)).
  repeat split; reflexivity.
Qed.

Lemma no_loan_payment (inputs : Inputs) :
  let r := calculateInvestment pow inputs in
  (hipoteca r <=? 0)%js = true ->
  cuotaHipotecaMensual r = Num 0 /\ interesesPromedioMensual r = Num 0.
Proof.
  intros r Hloan. subst r. split.
  - rewrite cuotaHipotecaMensual_eq. cbv zeta.
    apply calculatePMT_no_principal, Hloan.
  - rewrite interesesPromedioMensual_eq. cbv zeta.
    rewrite (leb_gtb _ _ Hloan). reflexivity.
Qed.

(** X2. Without a loan ([hipoteca <= 0]) there is no payment, no interest
    and no principal, and the monthly cash flow is the rent less the monthly
    expenses. *)
Theorem no_loan_no_financing (inputs : Inputs) :
  let r := calculateInvestment pow inputs in
  (hipoteca r <=? 0)%js = true ->
  cuotaHipotecaMensual r = Num 0 /\
  interesesPromedioMensual r = Num 0 /\
  amortizacionPromedioMensual r =~ Num 0 /\
  cashFlowMensual r
  =~ (field_or 0 (cuotaAlquiler inputs) - totalGastosMensual r)%js.
Proof.
  intros r Hloan. subst r.
  destruct (no_loan_payment inputs Hloan) as [Hcuota Hint].
  split; [exact Hcuota|]. split; [exact Hint|].
  rewrite amortizacion_eq, cashFlowMensual_eq. cbv zeta.
  rewrite Hint, Hcuota.
  destruct (totalGastosMensual_Num inputs) as [g [_ ->]].
  unfold field_or. split; simpl; ring.
Qed.

Ltac finite_arith :=
  repeat first
    [ rewrite mul_Num | rewrite add_Num | rewrite sub_Num
    | rewrite div_Num_12 ].

Lemma gtb_mul_pos (x : number) (k : Q) :
  0 < k -> (Num k * x >? 0)%js = (x >? 0)%js.
Proof.
  intros Hk.
  assert (Hsk : Qsign k = Gt) by (apply Qgt_alt; exact Hk).
  destruct x as [a | | |]; simpl; rewrite ?Hsk; try reflexivity.
  apply eq_true_iff_eq. rewrite !(gtb_Num _ 0). split; intros H.
  - destruct (Qlt_le_dec 0 a) as [Ha | Ha]; [exact Ha | exfalso].
    apply (Qlt_not_le _ _ H). rewrite <- (Qmult_0_r k).
    apply Qmult_le_l; assumption.
  - apply Qmult_lt_0_compat; assumption.
Qed.

Lemma gtb_div_pos (x : number) (c : Q) :
  0 < c -> (x / Num c >? 0)%js = (x >? 0)%js.
Proof.
  intros Hc.
  assert (Hsc : Qsign c = Gt) by (apply Qgt_alt; exact Hc).
  destruct x as [a | | |]; try (simpl; rewrite ?Hsc; reflexivity).
  rewrite (div_Num _ _ (Qpos_neq_0 _ Hc)).
  apply eq_true_iff_eq. rewrite !gtb_Num. split; intros H.
  - destruct (Qlt_le_dec 0 a) as [Ha | Ha]; [exact Ha | exfalso].
    apply (Qlt_not_le _ _ H).
    apply Qle_shift_div_r; [exact Hc|]. now rewrite Qmult_0_l.
  - apply Qlt_shift_div_l; [exact Hc|]. now rewrite Qmult_0_l.
Qed.

(** X7. A cash-on-cash return above zero only comes from capital to put in
    and a monthly cash flow above zero; a ratio of cash flow to rent above
    zero only comes from a rent and a monthly cash flow above zero.  This
    holds whatever [Math.pow] returns. *)
Theorem positive_ratio_needs_positive_cash_flow (inputs : Inputs) :
  let r := calculateInvestment pow inputs in
  ((cashOnCash r >? 0)%js = true ->
   (capitalAportar r >? 0)%js = true /\ (cashFlowMensual r >? 0)%js = true)
  /\
  ((cashFlowAlquiler r >? 0)%js = true ->
   0 < default 0 (cuotaAlquiler inputs) /\
   (cashFlowMensual r >? 0)%js = true).
Proof.
  cbv zeta. split.
  - rewrite cashOnCash_eq. cbv zeta.
    destruct (capitalAportar_Num inputs) as [k Hk]. rewrite Hk.
    destruct (Num k >? 0)%js eqn:Hcapital; [|discriminate].
    intros Hratio. split; [reflexivity|].
    apply gtb_Num in Hcapital.
    rewrite (gtb_div_pos _ _ Hcapital), gtb_mul_pos in Hratio;
      [exact Hratio | reflexivity].
  - rewrite cashFlowAlquiler_eq. cbv zeta. unfold field_or.
    destruct (Num (default 0 (cuotaAlquiler inputs)) >? 0)%js eqn:Hrent;
      [|discriminate].
    intros Hratio. apply gtb_Num in Hrent. split; [exact Hrent|].
    now rewrite (gtb_div_pos _ _ Hrent) in Hratio.
Qed.

Lemma capitalAportar_eq (inputs : Inputs) :
  let r := calculateInvestment pow inputs in
  capitalAportar r = (totalCompra r - hipoteca r)%js.
Proof. reflexivity. Qed.

(** X8. When nothing is financed ([hipoteca] is 0) and the purchase costs
    something, the total return is the net yield plus the revaluation, and
    the cash-on-cash return is the annual cash flow over the total of the
    purchase. *)
Theorem unfinanced_returns (inputs : Inputs) :
  let r := calculateInvestment pow inputs in
  hipoteca r =~ Num 0 ->
  (totalCompra r >? 0)%js = true ->
  rentabilidadTotal r
  =~ (rentabilidadNeta r + field_or 0 (revalorizacion inputs))%js /\
  cashOnCash r =~ (cashFlowAnual r / totalCompra r)%js.
Proof.
  intros r Hzero Htotal. subst r.
  assert (Hle : (hipoteca (calculateInvestment pow inputs) <=? 0)%js = true).
  { rewrite hipoteca_eq in *. apply leb_Num_true.
    simpl in Hzero. rewrite Hzero. apply Qle_refl. }
  destruct (no_loan_payment inputs Hle) as [Hcuota Hint].
  rewrite rentabilidadTotal_eq, rentabilidadNeta_eq, cashOnCash_eq.
  cbv zeta.
  change (cashFlowAnual (calculateInvestment pow inputs))
    with (cashFlowMensual (calculateInvestment pow inputs) * 12)%js.
  change (interesesPromedioAnual (calculateInvestment pow inputs))
    with (interesesPromedioMensual (calculateInvestment pow inputs) * 12)%js.
  rewrite cashFlowMensual_eq, capitalAportar_eq. cbv zeta.
  rewrite Hcuota, Hint, Htotal, ingresoAnual_eq.
  destruct (totalGastosMensual_Num inputs) as [g [Hg ->]]. rewrite Hg.
  destruct (totalCompra_Num inputs) as [t Ht]. rewrite Ht in *.
  rewrite hipoteca_eq in *. simpl in Hzero. unfold field_or.
  set (loan := default 0 (precioCompra inputs)
               * default 0 (porcentajeFinanciado inputs)) in *.
  apply gtb_Num in Htotal.
  assert (Hcapital : (Num (t - loan) >? 0)%js = true).
  { apply gtb_Num.
    assert (E : t - loan == t) by (rewrite Hzero; ring).
    now rewrite E. }
  finite_arith. rewrite Hcapital.
  repeat rewrite (div_Num_pos _ _ Hcapital).
  repeat rewrite (div_Num _ _ (Qpos_neq_0 _ Htotal)). finite_arith.
  assert (Hk : ~ t - loan == 0).
  { apply Qpos_neq_0. apply gtb_Num in Hcapital. exact Hcapital. }
  unfold same. split.
  - rewrite Hzero at 1. field. auto using Qpos_neq_0.
  - rewrite Hzero at 1. field. auto using Qpos_neq_0.
Qed.

(** X9. The guards of [calculatePMT] do not catch a principal that is NaN:
    unless [years <= 0], the payment is then NaN, not 0. *)
Theorem calculatePMT_NaN_principal (annualRate years : number) :
  (years <=? 0)%js = false ->
  calculatePMT pow annualRate years NaN = NaN.
Proof.
  intros Hyears. unfold calculatePMT. rewrite Hyears. simpl.
  destruct (annualRate <=? 0)%js; reflexivity.
Qed.

End FurtherCalculations.

(** * Further properties of the projection *)

Lemma lookup_projection (results : Results) (revalorizacion years : Q)
  (k : nat) (p : Point) :
  generateCashFlowProjection results (Some revalorizacion) (Some years) !! k
  = Some p ->
  p = point_of results revalorizacion (S k).
Proof.
  unfold generateCashFlowProjection. simpl default.
  rewrite final_state_after. intros Hp.
  now apply lookup_projection_after in Hp.
Qed.

(** X11. The entries are labelled with the year numbers 1, 2, 3, ... in
    decimal, after the prefix of the source. *)
Theorem projection_labels (results : Results) (revalorizacion years : Q)
  (k : nat) (p : Point) :
  generateCashFlowProjection results (Some revalorizacion) (Some years) !! k
  = Some p ->
  year p = "AÃ±o " +:+ pretty (Z.of_nat k + 1)%Z.
Proof.
  intros Hp. apply lookup_projection in Hp as ->.
  unfold point_of. cbn [year]. do 2 f_equal. lia.
Qed.

Lemma projection_after_prefix (results : Results) (revalorizacion : Q)
  (n m : nat) :
  (n <= m)%nat ->
  projection (state_after results revalorizacion n)
    `prefix_of` projection (state_after results revalorizacion m).
Proof.
  induction 1 as [|m _ IH]; [reflexivity|].
  rewrite projection_after_S. now apply prefix_app_r.
Qed.

(** X12. A longer horizon only adds entries: the projection over fewer
    years is a prefix of the projection over more years. *)
Theorem projection_prefix (results : Results) (revalorizacion : option Q)
  (years years' : Q) :
  years <= years' ->
  generateCashFlowProjection results revalorizacion (Some years)
    `prefix_of`
  generateCashFlowProjection results revalorizacion (Some years').
Proof.
  intros Hle. unfold generateCashFlowProjection. simpl default.
  rewrite !final_state_after. apply projection_after_prefix.
  apply Qfloor_resp_le in Hle. lia.
Qed.

Lemma state_after_NaN (results : Results) (revalorizacion : Q) (n : nat) :
  cashFlowMensual results = NaN ->
  accumulatedCashFlow (state_after results revalorizacion (S n)) = NaN /\
  currentRent (state_after results revalorizacion (S n)) = NaN.
Proof.
  intros Hb.
  assert (Hrent : forall m,
    currentRent (state_after results revalorizacion m) = NaN).
  { induction m as [|m IH].
    - unfold state_after. simpl. now rewrite Hb.
    - rewrite state_after_S. unfold loop_body. cbn [currentRent].
      rewrite IH. now destruct (1 <? Z.of_nat (S m))%Z. }
  split; [|apply Hrent].
  rewrite state_after_S. unfold loop_body. cbn [accumulatedCashFlow].
  rewrite Hrent.
  destruct (1 <? Z.of_nat (S n))%Z;
    now destruct (accumulatedCashFlow _).
Qed.

(** X15. A monthly cash flow that is NaN makes every entry of the
    projection NaN, in [cashFlow] and in [accumulated]. *)
Theorem projection_of_NaN (results : Results) (revalorizacion years : Q)
  (k : nat) (p : Point) :
  cashFlowMensual results = NaN ->
  generateCashFlowProjection results (Some revalorizacion) (Some years) !! k
  = Some p ->
  cashFlow p = NaN /\ accumulated p = NaN.
Proof.
  intros Hb Hp. apply lookup_projection in Hp as ->.
  destruct (state_after_NaN results revalorizacion k Hb) as [Ha Hc].
  unfold point_of. cbn [cashFlow accumulated]. now rewrite Ha, Hc.
Qed.

(** * Further properties of the table, the application and the report *)

Lemma itpTable_rates_bounded (name : string) (q : Q) :
  itpTable !! name = Some q -> 0.04 <= q /\ q <= 0.10.
Proof.
  intros H. apply elem_of_list_to_map_2 in H. unfold itpEntries in H.
  repeat (apply elem_of_cons in H as [[= _ ->] | H];
          [split; discriminate|]).
  inversion H.
Qed.

Lemma communities_NoDup : NoDup communities.
Proof. apply (bool_decide_unpack _). vm_compute. reflexivity. Qed.

Lemma communities_lookup (name : string) :
  name ∈ communities <-> exists q : Q, itpTable !! name = Some q.
Proof.
  unfold communities, itpTable. split.
  - intros Hin. apply list_elem_of_fmap in Hin as ([name' q] & -> & Hin).
    exists q.
    exact (elem_of_list_to_map_1 (M:=gmap string) itpEntries name' q
             communities_NoDup Hin).
  - intros [q Hq]. apply elem_of_list_to_map_2 in Hq.
    apply list_elem_of_fmap. exists (name, q). split; [reflexivity | exact Hq].
Qed.

(** X19. [communities] lists every key of the table once, and for each of
    them [getItpRate] returns the rate stored, a number between 4% and
    10%: the fallback is never taken for a community on offer. *)
Theorem communities_have_rates :
  NoDup communities /\
  forall name : string,
    name ∈ communities <->
    exists q : Q,
      itpTable !! name = Some q /\
      getItpRate name = VNumber (Num q) /\
      0.04 <= q /\ q <= 0.10.
Proof.
  split; [exact communities_NoDup|].
  intros name. rewrite communities_lookup. split.
  - intros [q Hq]. exists q. split; [exact Hq|]. split.
    + unfold getItpRate, get, or_else. rewrite Hq. simpl.
      now rewrite (itpTable_rates_nonzero _ _ Hq).
    + exact (itpTable_rates_bounded _ _ Hq).
  - intros (q & Hq & _). eauto.
Qed.

Lemma getItpRate_key_witness :
  getItpRate "Canarias" = VNumber (Num 0.065).
Proof. apply (getItpRate_key "Canarias" 0.065). reflexivity. Defined.

Lemma getItpRate_fallback_witness :
  getItpRate "Atlantis" = VNumber (Num 0.08).
Proof.
  apply (getItpRate_fallback "Atlantis"); [reflexivity|].
  apply (bool_decide_unpack _). vm_compute. reflexivity.
Defined.

(** ** The application *)

Lemma App_results_of_rate (pow : number -> number -> number)
  (state : App.State) (q : Q) :
  itpTable !! App.comunidad state = Some q ->
  App.results pow state
  = Some (calculateInvestment pow (App.with_itpRate q (App.numbers state))).
Proof.
  intros Hq. unfold App.results, getItpRate, get, or_else. rewrite Hq.
  simpl. now rewrite (itpTable_rates_nonzero _ _ Hq).
Qed.

(** X20. For a community on offer the application charges the ITP of the
    table: [impuestoITP] is the price times that community's rate, the
    destructuring default of 10% playing no part; and its projection always
    has ten entries. *)
Theorem App_uses_table_rate (pow : number -> number -> number)
  (state : App.State) :
  App.comunidad state ∈ communities ->
  exists (q : Q) (r : Results) (points : list Point),
    itpTable !! App.comunidad state = Some q /\
    App.results pow state = Some r /\
    impuestoITP r
    = Num (default 0 (precioCompra (App.numbers state)) * q) /\
    App.cashFlowProjection pow state = Some points /\
    length points = 10%nat.
Proof.
  intros Hin. apply communities_lookup in Hin as [q Hq].
  exists q. eexists. eexists. split; [exact Hq|].
  unfold App.cashFlowProjection.
  rewrite (App_results_of_rate pow state q Hq).
  split; [reflexivity|]. split; [reflexivity|]. split; [reflexivity|].
  apply (projection_length_floor _ _ 10).
Qed.

Lemma round_monthly_positive (x : Q) :
  (round (Num x / 12) >? 0)%js = true <-> 6 <= x.
Proof.
  rewrite div_Num_12.
  change (round (Num (x / 12)))
    with (Num (inject_Z (Qfloor (x / 12 + (1 # 2))))).
  rewrite gtb_Num.
  change 0 with (inject_Z 0). rewrite <- Zlt_Qlt.
  pose proof (Qfloor_le (x / 12 + (1 # 2))) as Hle.
  pose proof (Qlt_floor (x / 12 + (1 # 2))) as Hlt.
  set (z := Qfloor (x / 12 + (1 # 2))) in *.
  assert (Hx12 : x == 12 * (x / 12)) by field.
  set (y := x / 12) in *.
  split.
  - intros Hz.
    assert (H1 : inject_Z 1 <= inject_Z z) by (rewrite <- Zle_Qle; lia).
    change (inject_Z 1) with 1 in H1. lra.
  - intros Hx.
    destruct (Z.lt_ge_cases 0 z) as [Hz | Hz]; [exact Hz | exfalso].
    assert (H1 : inject_Z (z + 1) <= inject_Z 1) by (rewrite <- Zle_Qle; lia).
    change (inject_Z 1) with 1 in H1. lra.
Qed.

Lemma expense_shown (field : option Q) :
  (round (App.input_value field / 12) >? 0)%js = true
  <-> exists x : Q, field = Some x /\ 6 <= x.
Proof.
  destruct field as [x|]; simpl App.input_value.
  - rewrite round_monthly_positive. split; [eauto|].
    now intros (y & [= ->] & Hy).
  - split; [discriminate | now intros (y & Hy & _)].
Qed.

Tactic Notation "kept_item" integer(n) hyp(HP) :=
  eexists; split;
  [ | apply list_elem_of_filter; split;
      [ | do n apply list_elem_of_further; apply list_elem_of_here ];
      exact HP ];
  reflexivity.

Lemma breakdown_names (results : Results) (inputs : Inputs) (n : string) :
  n ∈ App.name <$> App.expenseBreakdown results inputs <->
  (n = "Hipoteca" /\ (round (cuotaHipotecaMensual results) >? 0)%js = true)
  \/ (n = "Impuestos" /\
      (round (App.input_value (impuestosAnuales inputs) / 12) >? 0)%js = true)
  \/ (n = "Seguros" /\
      (round (App.input_value (segurosAnuales inputs) / 12) >? 0)%js = true)
  \/ (n = "Comunidad" /\
      (round (App.input_value (comunidadAnual inputs) / 12) >? 0)%js = true)
  \/ (n = "Mantenimiento" /\
      (round (App.input_value (mantenimientoAnual inputs) / 12) >? 0)%js
      = true).
Proof.
  unfold App.expenseBreakdown. rewrite list_elem_of_fmap. split.
  - intros (item & -> & Hin). apply list_elem_of_filter in Hin as [HP Hin].
    rewrite !elem_of_cons in Hin.
    destruct Hin as [-> | [-> | [-> | [-> | [-> | Hin]]]]];
      [tauto | tauto | tauto | tauto | tauto | inversion Hin].
  - intros [[-> HP] | [[-> HP] | [[-> HP] | [[-> HP] | [-> HP]]]]].
    + kept_item 0 HP.
    + kept_item 1 HP.
    + kept_item 2 HP.
    + kept_item 3 HP.
    + kept_item 4 HP.
Qed.

(** X21. A yearly expense gets a bar in the monthly breakdown exactly when
    the state holds it and it is at least 6 a year, so that its twelfth
    rounds to 1 or more; the mortgage gets one exactly when the rounded
    payment is above zero. *)
Theorem breakdown_shows (results : Results) (inputs : Inputs) :
  let names := App.name <$> App.expenseBreakdown results inputs in
  ("Hipoteca" ∈ names <->
   (round (cuotaHipotecaMensual results) >? 0)%js = true) /\
  ("Impuestos" ∈ names <->
   exists x : Q, impuestosAnuales inputs = Some x /\ 6 <= x) /\
  ("Seguros" ∈ names <->
   exists x : Q, segurosAnuales inputs = Some x /\ 6 <= x) /\
  ("Comunidad" ∈ names <->
   exists x : Q, comunidadAnual inputs = Some x /\ 6 <= x) /\
  ("Mantenimiento" ∈ names <->
   exists x : Q, mantenimientoAnual inputs = Some x /\ 6 <= x).
Proof.
  cbv zeta. rewrite <- !expense_shown, !breakdown_names.
  repeat split; intuition discriminate.
Qed.

(** X22. The breakdown keeps the order of the source and has at most the
    five bars Hipoteca, Impuestos, Seguros, Comunidad and Mantenimiento,
    each with a value above zero: the empty periods, part of the monthly
    expenses, never get a bar. *)
Theorem breakdown_bars (results : Results) (inputs : Inputs) :
  App.name <$> App.expenseBreakdown results inputs
    `sublist_of`
    ["Hipoteca"; "Impuestos"; "Seguros"; "Comunidad"; "Mantenimiento"] /\
  Forall (fun item => (App.value item >? 0)%js = true)
    (App.expenseBreakdown results inputs).
Proof.
  split.
  - unfold App.expenseBreakdown.
    match goal with
    | |- _ <$> filter ?P ?l `sublist_of` _ =>
        change ["Hipoteca"; "Impuestos"; "Seguros"; "Comunidad";
                "Mantenimiento"] with (App.name <$> l);
        apply (fmap_sublist App.name), sublist_filter
    end.
  - apply Forall_forall. intros item Hin.
    now apply list_elem_of_filter in Hin as [HP _].
Qed.

(** ** The name of the report file *)

Lemma sanitize_unit (c : N) :
  let c' := if Report.alphanumeric c then c else 95%N in
  (Report.alphanumeric c' = true \/ c' = 95%N) /\
  (if Report.alphanumeric c' then c' else 95%N) = c'.
Proof.
  cbv zeta. destruct (Report.alphanumeric c) eqn:E.
  - rewrite E. auto.
  - split; [right|]; reflexivity.
Qed.

(** X23. Cleaning the address keeps its length and every letter and digit
    in place, turns every other code unit into an underscore, and cleaning
    twice changes nothing more. *)
Theorem sanitize_address (direccion : list N) :
  length (Report.sanitize direccion) = length direccion /\
  (forall (i : nat) (c : N),
     direccion !! i = Some c ->
     Report.sanitize direccion !! i
     = Some (if Report.alphanumeric c then c else 95%N)) /\
  Forall (fun c => Report.alphanumeric c = true \/ c = 95%N)
    (Report.sanitize direccion) /\
  Report.sanitize (Report.sanitize direccion) = Report.sanitize direccion.
Proof.
  unfold Report.sanitize. split; [apply length_fmap|]. split; [|split].
  - intros i c Hc. now rewrite list_lookup_fmap, Hc.
  - apply Forall_fmap, Forall_forall. intros c _.
    exact (proj1 (sanitize_unit c)).
  - rewrite <- list_fmap_compose. apply list_fmap_ext. intros i c _.
    exact (proj2 (sanitize_unit c)).
Qed.

Lemma sanitize_is_safe (direccion : list N) :
  forallb Report.safe (Report.sanitize direccion) = true.
Proof.
  unfold Report.sanitize.
  induction direccion as [|c l IH]; [reflexivity|].
  cbn [fmap list_fmap forallb]. apply andb_true_intro. split; [|exact IH].
  unfold Report.safe. destruct (Report.alphanumeric c) eqn:E.
  - now rewrite E.
  - reflexivity.
Qed.

Lemma date_unit_safe (c : N) :
  Report.date_unit c = true -> Report.safe c = true.
Proof.
  unfold Report.date_unit, Report.safe, Report.alphanumeric.
  intros H. apply orb_prop in H as [-> | ->]; [reflexivity|].
  now rewrite !orb_true_r.
Qed.

Lemma forallb_impl {A : Type} (f g : A -> bool) (l : list A) :
  (forall x, f x = true -> g x = true) ->
  forallb f l = true -> forallb g l = true.
Proof.
  intros Hfg. induction l as [|x l IH]; [reflexivity|].
  cbn [forallb]. intros H. apply andb_prop in H as [Hx Hl].
  apply andb_true_intro. auto.
Qed.

(** X24. Whatever the address, the name of the report file is made of
    letters, digits, [_], [-] and [.] only, as long as the ISO string of
    the date starts, as it does, with digits and hyphens. *)
Theorem fileName_is_safe (direccion isoString : list N) :
  forallb Report.date_unit (take 10 isoString) = true ->
  forallb Report.safe (Report.fileName direccion isoString) = true.
Proof.
  intros Hdate. unfold Report.fileName.
  rewrite !forallb_app, sanitize_is_safe.
  rewrite (forallb_impl _ _ _ date_unit_safe Hdate).
  reflexivity.
Qed.

Lemma fileName_is_safe_witness :
  Report.fileName (Report.units "Calle xxx")
    (Report.units "2024-05-17T09:30:00.000Z")
  = Report.units "Informe_Inversion_Calle_xxx_2024-05-17.pdf" /\
  forallb Report.safe
    (Report.fileName (Report.units "Calle xxx")
       (Report.units "2024-05-17T09:30:00.000Z"))
  = true.
Proof.
  split; [reflexivity|].
  apply (fileName_is_safe (Report.units "Calle xxx")
           (Report.units "2024-05-17T09:30:00.000Z")).
  reflexivity.
Defined.

(** * The further theorems at concrete inputs *)

Lemma ratios_zero_without_rent_witness :
  per vacantResults = Num 0 /\
  porcentajeHipotecaAlquiler vacantResults = Num 0 /\
  cashFlowAlquiler vacantResults = Num 0.
Proof.
  apply (ratios_zero_without_rent pow_whole vacant). apply Qle_refl.
Defined.

Lemma no_loan_no_financing_witness :
  cuotaHipotecaMensual cashPurchaseResults = Num 0 /\
  interesesPromedioMensual cashPurchaseResults = Num 0 /\
  amortizacionPromedioMensual cashPurchaseResults =~ Num 0 /\
  cashFlowMensual cashPurchaseResults
  =~ (Num 1100 - totalGastosMensual cashPurchaseResults)%js.
Proof.
  apply (no_loan_no_financing pow_whole cashPurchase). reflexivity.
Defined.

Lemma positive_ratio_needs_positive_cash_flow_witness :
  ((capitalAportar scenarioResults >? 0)%js = true /\
   (cashFlowMensual scenarioResults >? 0)%js = true) /\
  0 < 1100 /\ (cashFlowMensual scenarioResults >? 0)%js = true.
Proof.
  split.
  - apply (proj1 (positive_ratio_needs_positive_cash_flow pow_whole scenario)).
    reflexivity.
  - apply (proj2 (positive_ratio_needs_positive_cash_flow pow_whole scenario)).
    reflexivity.
Defined.

Lemma unfinanced_returns_witness :
  rentabilidadTotal cashPurchaseResults
  =~ (rentabilidadNeta cashPurchaseResults + Num 0.02)%js /\
  cashOnCash cashPurchaseResults
  =~ (cashFlowAnual cashPurchaseResults / totalCompra cashPurchaseResults)%js.
Proof.
  apply (unfinanced_returns pow_whole cashPurchase);
    vm_compute; reflexivity.
Defined.

Lemma calculatePMT_NaN_principal_witness :
  calculatePMT pow_whole 0.02 30 NaN = NaN.
Proof.
  apply (calculatePMT_NaN_principal pow_whole 0.02 30). reflexivity.
Defined.

Lemma projection_labels_witness :
  year {| year := "AÃ±o 3"; cashFlow := 1248; accumulated := 3672 |}
  = "AÃ±o " +:+ pretty (Z.of_nat 2 + 1)%Z.
Proof.
  apply (projection_labels rent100Results 0.02 3 2%nat).
  vm_compute. reflexivity.
Defined.

Lemma projection_prefix_witness :
  generateCashFlowProjection scenarioResults (Some 0.02) (Some 3)
    `prefix_of`
  generateCashFlowProjection scenarioResults (Some 0.02) (Some 10).
Proof.
  apply (projection_prefix scenarioResults (Some 0.02) 3 10). discriminate.
Defined.

Lemma projection_of_NaN_witness :
  cashFlow {| year := "AÃ±o 1"; cashFlow := NaN; accumulated := NaN |} = NaN /\
  accumulated {| year := "AÃ±o 1"; cashFlow := NaN; accumulated := NaN |}
  = NaN.
Proof.
  apply (projection_of_NaN brokenResults 0.02 10 0%nat).
  - vm_compute. reflexivity.
  - vm_compute. reflexivity.
Defined.

Lemma communities_have_rates_witness :
  exists q : Q,
    itpTable !! "Galicia" = Some q /\
    getItpRate "Galicia" = VNumber (Num q) /\
    0.04 <= q /\ q <= 0.10.
Proof.
  apply (proj1 (proj2 communities_have_rates "Galicia")).
  apply (bool_decide_unpack _). vm_compute. reflexivity.
Defined.

Lemma App_uses_table_rate_witness :
  exists (q : Q) (r : Results) (points : list Point),
    itpTable !! "Cataluña" = Some q /\
    App.results pow_whole App.defaultInputs = Some r /\
    impuestoITP r = Num (105000 * q) /\
    App.cashFlowProjection pow_whole App.defaultInputs = Some points /\
    length points = 10%nat.
Proof.
  apply (App_uses_table_rate pow_whole App.defaultInputs).
  apply (bool_decide_unpack _). vm_compute. reflexivity.
Defined.

Lemma breakdown_shows_witness :
  "Impuestos"
    ∈ App.name
      <$> App.expenseBreakdown scenarioResults (App.numbers App.defaultInputs)
  /\ "Mantenimiento"
       ∉ App.name
         <$> App.expenseBreakdown scenarioResults
               (App.numbers App.defaultInputs).
Proof.
  pose proof (breakdown_shows scenarioResults (App.numbers App.defaultInputs))
    as (_ & Himpuestos & _ & _ & Hmantenimiento).
  split.
  - apply Himpuestos. exists 800. split; [reflexivity | discriminate].
  - intros Hin. apply Hmantenimiento in Hin as (x & [= <-] & Hx).
    apply Hx. reflexivity.
Defined.

Lemma sanitize_address_witness :
  Report.sanitize (Report.units "Calle xxx") !! 5%nat = Some 95%N.
Proof.
  apply (proj1 (proj2 (sanitize_address (Report.units "Calle xxx")))
           5%nat 32%N).
  reflexivity.
Defined.
